(** * install/autodetect.go: flavor detection, validation checks, datapath
    resolution and the final configuration gate of the installer.

  The Go code mutates one [K8sInstaller] through a pointer, writes progress
  lines with [k.Log] and calls three collaborators (the flavor detector, the
  validation checks, the Azure lookup).  The embedding threads the installer
  and a trace of those effects through a small state-and-error monad. *)

From Stdlib Require Import Ascii.
From stdpp Require Import gmap strings list fin_maps.

(** ** strings: the two functions of Go's [strings] package the file uses *)

Module strings.

(** [strings.Contains(s, substr)]: [substr] occurs somewhere in [s]. *)
Fixpoint Contains (s substr : string) : bool :=
  String.prefix substr s ||
  match s with
  | EmptyString => false
  | String _ s' => Contains s' substr
  end.

(** [strings.ReplaceAll(s, old, new)] for a one-byte [old] and [new], the
    only way the file calls it: every occurrence of the byte is replaced. *)
Fixpoint ReplaceAll (s : string) (old new : ascii) : string :=
  match s with
  | EmptyString => EmptyString
  | String c s' =>
      String (if Ascii.eqb c old then new else c) (ReplaceAll s' old new)
  end.

End strings.

(** ** regexp: the fragment of Go's [regexp] that [clusterNameValidation] needs

  A Go string is a byte sequence and the pattern's classes hold ASCII bytes
  only, so a rune outside ASCII (every byte of which is at least 0x80) can
  never be in a class: matching byte by byte agrees with matching rune by
  rune.  Matching is by Brzozowski derivatives. *)

Module regexp.

(** One item of a bracket expression: a literal byte or a range [lo-hi]. *)
Inductive ClassItem : Type :=
| Lit (c : ascii)
| Range (lo hi : ascii).

(** The operators of [regexp/syntax] that occur in the pattern. *)
Inductive Regexp : Type :=
| NoMatch
| EmptyMatch
| CharClass (items : list ClassItem)
| Concat (r1 r2 : Regexp)
| Alternate (r1 r2 : Regexp)
| Star (r : Regexp)
| Capture (r : Regexp).

Definition in_item (c : ascii) (i : ClassItem) : bool :=
  match i with
  | Lit d => Ascii.eqb c d
  | Range lo hi => Ascii.leb lo c && Ascii.leb c hi
  end.

Definition in_class (c : ascii) (items : list ClassItem) : bool :=
  existsb (in_item c) items.

Fixpoint nullable (r : Regexp) : bool :=
  match r with
  | NoMatch => false
  | EmptyMatch => true
  | CharClass _ => false
  | Concat r1 r2 => nullable r1 && nullable r2
  | Alternate r1 r2 => nullable r1 || nullable r2
  | Star _ => true
  | Capture r => nullable r
  end.

Fixpoint deriv (c : ascii) (r : Regexp) : Regexp :=
  match r with
  | NoMatch => NoMatch
  | EmptyMatch => NoMatch
  | CharClass items => if in_class c items then EmptyMatch else NoMatch
  | Concat r1 r2 =>
      if nullable r1
      then Alternate (Concat (deriv c r1) r2) (deriv c r2)
      else Concat (deriv c r1) r2
  | Alternate r1 r2 => Alternate (deriv c r1) (deriv c r2)
  | Star r => Concat (deriv c r) (Star r)
  | Capture r => deriv c r
  end.

(** [re.MatchString(s)] for a pattern written [^r$] without flags: [^] and
    [$] pin the match to the beginning and the end of the text, so the
    whole of [s] has to match [r]. *)
Fixpoint MatchString (r : Regexp) (s : string) : bool :=
  match s with
  | EmptyString => nullable r
  | String c s' => MatchString (deriv c r) s'
  end.

(** The words a pattern denotes, to state what [MatchString] decides. *)
Inductive matches : Regexp → list ascii → Prop :=
| matches_empty : matches EmptyMatch []
| matches_class c items : in_class c items = true → matches (CharClass items) [c]
| matches_concat r1 r2 l1 l2 :
    matches r1 l1 → matches r2 l2 → matches (Concat r1 r2) (l1 ++ l2)
| matches_left r1 r2 l : matches r1 l → matches (Alternate r1 r2) l
| matches_right r1 r2 l : matches r2 l → matches (Alternate r1 r2) l
| matches_star_nil r : matches (Star r) []
| matches_star_app r l1 l2 :
    matches r l1 → matches (Star r) l2 → matches (Star r) (l1 ++ l2)
| matches_capture r l : matches r l → matches (Capture r) l.

End regexp.

(** ** k8s: the flavor types of the [k8s] package *)

Module k8s.

(** Modelled from the spec: the type [k8s.Kind] is declared outside this
    file.  The file names [KindUnknown], [KindMinikube], [KindKind],
    [KindEKS], [KindGKE] and [KindAKS]; the spec calls the enumeration
    closed but extensible, so [KindOther] stands for every further kind. *)
Inductive Kind : Type :=
| KindUnknown
| KindMinikube
| KindKind
| KindEKS
| KindGKE
| KindAKS
| KindOther (tag : nat).

#[global] Instance Kind_eq_dec : EqDecision Kind.
Proof. solve_decision. Defined.

Definition Kind_code (k : Kind) : nat :=
  match k with
  | KindUnknown => 0
  | KindMinikube => 1
  | KindKind => 2
  | KindEKS => 3
  | KindGKE => 4
  | KindAKS => 5
  | KindOther tag => 6 + tag
  end.

Definition Kind_of_code (n : nat) : Kind :=
  match n with
  | 0 => KindUnknown
  | 1 => KindMinikube
  | 2 => KindKind
  | 3 => KindEKS
  | 4 => KindGKE
  | 5 => KindAKS
  | S (S (S (S (S (S tag))))) => KindOther tag
  end.

Lemma Kind_of_code_code (k : Kind) : Kind_of_code (Kind_code k) = k.
Proof. by destruct k. Qed.

#[global] Instance Kind_countable : Countable Kind :=
  inj_countable' Kind_code Kind_of_code Kind_of_code_code.

(** Modelled from the spec: [k8s.Flavor], what the flavor detector returns;
    the file reads its [Kind] and [ClusterName] fields. *)
Record Flavor : Type := mkFlavor {
  Kind_ : Kind;
  ClusterName : string;
}.

End k8s.

(** ** install: the package of autodetect.go *)

Module install.

(** *** Errors, log lines and the trace of effects *)

(** The [error] values the file returns.  [ExternalError] is an error that
    a collaborator made (a check, the Azure lookup); the other constructors
    are the [fmt.Errorf] calls of the file, [%w] keeping the wrapped error. *)
Inductive error : Type :=
| ExternalError (msg : string)
| ValidationCheckFailed (kind : k8s.Kind) (err : error)
| InvalidClusterNameDots
| InvalidClusterName
| InvalidEncryptionMode.

(** One constructor for each [k.Log] call of the file, holding the arguments
    of its format string. *)
Inductive LogLine : Type :=
| LogAutodetectedKind (kind : k8s.Kind)
| LogRunningChecks (kind : k8s.Kind)
| LogSkippingDisabled (name : string)
| LogCheckFailed (name : string) (err : error)
| LogDisableHint (name : string)
| LogUsingVersion (version : string)
| LogAutodetectedClusterName (name : string)
| LogCustomDatapathMode (mode : string)
| LogKPRDisabled
| LogAutodetectedDatapathMode (mode : string)
| LogCustomIPAM (ipam : string)
| LogClusterNameDots (name : string)
| LogClusterNameInvalid (name : string) (re : regexp.Regexp)
| LogInvalidEncryption (mode : string).

(** What a run does to the outside, in order: the lines it logs and the
    collaborators it calls ([check.Check] is recorded under [check.Name()]). *)
Inductive event : Type :=
| Logged (line : LogLine)
| CalledAutodetectFlavor
| CalledCheck (name : string)
| CalledAzureAutodetect.

(** *** The installer *)

Record AzureParameters : Type := mkAzureParameters {
  IsBYOCNI : bool;
}.

(** The fields of [Parameters] that the file reads or writes. *)
Record Parameters : Type := mkParameters {
  DisableChecks : list string;
  DatapathMode : string;
  KubeProxyReplacement : string;
  ClusterName : string;
  Encryption : string;
  IPAM : string;
  Azure : AzureParameters;
}.

Record K8sInstaller : Type := mkK8sInstaller {
  params : Parameters;
  flavor : k8s.Flavor;
  chartVersion : string;
}.

(** The uninstaller: of [K8sUninstaller] the file writes the [flavor] field
    only (here [uflavor]: Rocq has one name space for the projections of a
    module). *)
Record K8sUninstaller : Type := mkK8sUninstaller {
  uflavor : k8s.Flavor;
}.

Definition with_DatapathMode (v : string) (p : Parameters) : Parameters :=
  mkParameters (DisableChecks p) v (KubeProxyReplacement p) (ClusterName p)
    (Encryption p) (IPAM p) (Azure p).

Definition with_KubeProxyReplacement (v : string) (p : Parameters) : Parameters :=
  mkParameters (DisableChecks p) (DatapathMode p) v (ClusterName p)
    (Encryption p) (IPAM p) (Azure p).

Definition with_ClusterName (v : string) (p : Parameters) : Parameters :=
  mkParameters (DisableChecks p) (DatapathMode p) (KubeProxyReplacement p) v
    (Encryption p) (IPAM p) (Azure p).

Definition with_IsBYOCNI (v : bool) (p : Parameters) : Parameters :=
  mkParameters (DisableChecks p) (DatapathMode p) (KubeProxyReplacement p)
    (ClusterName p) (Encryption p) (IPAM p) (mkAzureParameters v).

(** The interface [validationCheck].
    Modelled from the spec: the types that implement it are declared outside
    this file; by the spec a check is stateless, reads the installer state it
    is passed and returns an error or nothing ([None] is Go's [nil]). *)
Record validationCheck : Type := mkValidationCheck {
  Name : string;
  Check : K8sInstaller -> option error;
}.

(** *** The monad: installer and trace threaded, first error stops the run *)

Record world : Type := mkWorld {
  installer : K8sInstaller;
  trace : list event;
}.

Inductive outcome (A : Type) : Type :=
| Return (a : A)
| Fail (err : error).
Arguments Return {A} a.
Arguments Fail {A} err.

Definition M (A : Type) : Type := world -> outcome A * world.

#[global] Instance M_ret : MRet M := fun A a w => (Return a, w).

#[global] Instance M_bind : MBind M := fun A B f m w =>
  match m w with
  | (Return a, w') => f a w'
  | (Fail err, w') => (Fail err, w')
  end.

(** [return err] with a non-nil [err]. *)
Definition fail {A : Type} (err : error) : M A := fun w => (Fail err, w).

Definition emit (e : event) : M unit := fun w =>
  (Return tt, mkWorld (installer w) (trace w ++ [e])).

(** [k.Log(format, args...)]. *)
Definition Log (line : LogLine) : M unit := emit (Logged line).

Definition get : M K8sInstaller := fun w => (Return (installer w), w).

Definition setParams (f : Parameters -> Parameters) : M unit := fun w =>
  let k := installer w in
  (Return tt, mkWorld (mkK8sInstaller (f (params k)) (flavor k) (chartVersion k)) (trace w)).

Definition setFlavor (fl : k8s.Flavor) : M unit := fun w =>
  let k := installer w in
  (Return tt, mkWorld (mkK8sInstaller (params k) fl (chartVersion k)) (trace w)).

Definition when (b : bool) (m : M unit) : M unit := if b then m else mret tt.

(** *** Package-level declarations *)

(** [validationChecks]: the registry as the file declares it, a map from the
    kind to the checks of that kind.  The three check types are declared
    outside this file and are taken as parameters. *)
Definition validationChecks
    (minikubeVersionValidation kindVersionValidation azureVersionValidation : validationCheck)
    : gmap k8s.Kind (list validationCheck) :=
  {[ k8s.KindMinikube := [minikubeVersionValidation];
     k8s.KindKind := [kindVersionValidation];
     k8s.KindAKS := [azureVersionValidation] ]}.

(** [clusterNameValidation], the pattern
    [^[a-z0-9]([-a-z0-9]*[a-z0-9])$]: a class, then a group holding a starred
    class followed by a class.  The group carries no quantifier. *)
Definition clusterNameValidation : regexp.Regexp :=
  regexp.Concat
    (regexp.CharClass [regexp.Range "a" "z"; regexp.Range "0" "9"])
    (regexp.Capture
       (regexp.Concat
          (regexp.Star
             (regexp.CharClass
                [regexp.Lit "-"; regexp.Range "a" "z"; regexp.Range "0" "9"]))
          (regexp.CharClass [regexp.Range "a" "z"; regexp.Range "0" "9"]))).

(** Modelled from the spec: the three encryption constants are declared
    outside this file; the spec gives their values as "disabled", "ipsec"
    and "wireguard". *)
Definition encryptionDisabled : string := "disabled".
Definition encryptionIPsec : string := "ipsec".
Definition encryptionWireguard : string := "wireguard".

(** The name pattern in the spec's words: a name starts with a lowercase
    letter or digit, goes on with zero or more lowercase letters, digits and
    hyphens, and ends in a lowercase letter or digit; a name of one such
    letter or digit is valid too.  To be compared with
    [clusterNameValidation]. *)
Definition lower_or_digit (c : ascii) : bool :=
  (Ascii.leb "a" c && Ascii.leb c "z") || (Ascii.leb "0" c && Ascii.leb c "9").

Definition label_char (c : ascii) : bool :=
  lower_or_digit c || Ascii.eqb c "-".

Definition dns_label_like (s : string) : bool :=
  match String.list_ascii_of_string s with
  | [] => false
  | c :: rest =>
      lower_or_digit c && forallb label_char rest && lower_or_digit (List.last rest c)
  end.

(** The loop of [checkDisabled] over [p.DisableChecks]. *)
Fixpoint checkDisabled_loop (ns : list string) (name : string) : bool :=
  match ns with
  | [] => false
  | n :: ns' => if String.eqb n name then true else checkDisabled_loop ns' name
  end.

(** [func (p Parameters) checkDisabled(name string) bool] *)
Definition checkDisabled (p : Parameters) (name : string) : bool :=
  checkDisabled_loop (DisableChecks p) name.

Section autodetect.

(** The datapath-mode constants are declared outside this file: any five
    strings. *)
Variables DatapathTunnel DatapathAwsENI DatapathGKE DatapathAzure DatapathAKSBYOCNI : string.

(** The collaborators of one run: what [k.client.AutodetectFlavor(ctx)]
    answers, what the Azure lookup answers (an error or the BYOCNI flag), and
    the value of the package variable [validationChecks]. *)
Variable AutodetectFlavor : k8s.Flavor.
Variable DetectBYOCNI : error + bool.
Variable registry : gmap k8s.Kind (list validationCheck).

(** Modelled from the spec: [azureAutodetect] is declared outside this file.
    By the spec it is a fallible lookup, [DetectBYOCNI(context) -> (bool,
    error)], that populates the BYOCNI flag of the nested Azure parameters. *)
Definition azureAutodetect : M unit :=
  emit CalledAzureAutodetect;;
  match DetectBYOCNI with
  | inl err => fail err
  | inr byocni => setParams (with_IsBYOCNI byocni)
  end.

(** [func (k *K8sInstaller) detectDatapathMode(ctx, withKPR bool) error] *)
Definition detectDatapathMode (withKPR : bool) : M unit :=
  k ← get;
  if decide (DatapathMode (params k) ≠ "") then
    Log (LogCustomDatapathMode (DatapathMode (params k)))
  else
    match k8s.Kind_ (flavor k) with
    | k8s.KindKind =>
        setParams (with_DatapathMode DatapathTunnel);;
        k ← get;
        when (withKPR && bool_decide (KubeProxyReplacement (params k) = ""))
          (Log LogKPRDisabled;;
           setParams (with_KubeProxyReplacement "disabled"))
    | k8s.KindMinikube => setParams (with_DatapathMode DatapathTunnel)
    | k8s.KindEKS => setParams (with_DatapathMode DatapathAwsENI)
    | k8s.KindGKE => setParams (with_DatapathMode DatapathGKE)
    | k8s.KindAKS =>
        azureAutodetect;;
        k ← get;
        (if IsBYOCNI (Azure (params k))
         then setParams (with_DatapathMode DatapathAKSBYOCNI)
         else setParams (with_DatapathMode DatapathAzure));;
        k ← get;
        when (withKPR && bool_decide (KubeProxyReplacement (params k) = ""))
          (Log LogKPRDisabled;;
           setParams (with_KubeProxyReplacement "disabled"))
    | _ => setParams (with_DatapathMode DatapathTunnel)
    end;;
    k ← get;
    when (bool_decide (DatapathMode (params k) ≠ ""))
      (Log (LogAutodetectedDatapathMode (DatapathMode (params k)))).

(** [func (k *K8sInstaller) autodetect(ctx)] *)
Definition autodetect : M unit :=
  emit CalledAutodetectFlavor;;
  setFlavor AutodetectFlavor;;
  k ← get;
  when (bool_decide (k8s.Kind_ (flavor k) ≠ k8s.KindUnknown))
    (Log (LogAutodetectedKind (k8s.Kind_ (flavor k)))).

(** The body of the [for _, check := range ...] loop of
    [autodetectAndValidate], over the checks still to run. *)
Fixpoint runChecks (checks : list validationCheck) : M unit :=
  match checks with
  | [] => mret tt
  | check :: rest =>
      let name := Name check in
      k ← get;
      if checkDisabled (params k) name then
        Log (LogSkippingDisabled name);;
        runChecks rest
      else
        emit (CalledCheck name);;
        match Check check k with
        | Some err =>
            Log (LogCheckFailed name err);;
            Log (LogDisableHint name);;
            fail (ValidationCheckFailed (k8s.Kind_ (flavor k)) err)
        | None => runChecks rest
        end
  end.

(** Lines 112-127 of [autodetectAndValidate]: the checks of the detected
    kind.  Indexing a Go map at a key it does not hold gives the nil slice,
    of length 0: [!!!]. *)
Definition runValidationChecks : M unit :=
  k ← get;
  when (0 <? length (registry !!! k8s.Kind_ (flavor k)))
    (Log (LogRunningChecks (k8s.Kind_ (flavor k)));;
     runChecks (registry !!! k8s.Kind_ (flavor k))).

(** Lines 131-137: the detected cluster name is adopted when the caller gave
    none. *)
Definition adoptClusterName : M unit :=
  k ← get;
  when (bool_decide (ClusterName (params k) = ""))
    (when (bool_decide (k8s.ClusterName (flavor k) ≠ ""))
       (let name := strings.ReplaceAll (k8s.ClusterName (flavor k)) "_" "-" in
        Log (LogAutodetectedClusterName name);;
        setParams (with_ClusterName name))).

(** Lines 149-157: the two tests of the cluster name. *)
Definition clusterNameGate : M unit :=
  k ← get;
  if strings.Contains (ClusterName (params k)) "." then
    Log (LogClusterNameDots (ClusterName (params k)));;
    fail InvalidClusterNameDots
  else
    if negb (regexp.MatchString clusterNameValidation (ClusterName (params k))) then
      Log (LogClusterNameInvalid (ClusterName (params k)) clusterNameValidation);;
      fail InvalidClusterName
    else mret tt.

(** Lines 159-167: the [switch] on the encryption mode. *)
Definition encryptionGate : M unit :=
  k ← get;
  if bool_decide (Encryption (params k) ∈
                    [encryptionDisabled; encryptionIPsec; encryptionWireguard])
  then mret tt
  else
    Log (LogInvalidEncryption (Encryption (params k)));;
    fail InvalidEncryptionMode.

(** Lines 143-167, the configuration gate: the notice for the deprecated
    IPAM flag, then the tests of the cluster name and of the encryption
    mode. *)
Definition configurationGate : M unit :=
  k ← get;
  when (bool_decide (IPAM (params k) ≠ "")) (Log (LogCustomIPAM (IPAM (params k))));;
  clusterNameGate;;
  encryptionGate.

(** [func (k *K8sInstaller) autodetectAndValidate(ctx) error] *)
Definition autodetectAndValidate : M unit :=
  autodetect;;
  runValidationChecks;;
  k ← get;
  Log (LogUsingVersion (chartVersion k));;
  adoptClusterName;;
  detectDatapathMode true;;
  configurationGate.

(** The mode of the kinds that the [switch] resolves by one assignment. *)
Definition plain_mode (kind : k8s.Kind) : string :=
  match kind with
  | k8s.KindEKS => DatapathAwsENI
  | k8s.KindGKE => DatapathGKE
  | _ => DatapathTunnel
  end.

(** Lines 104-106: the line [autodetect] logs for a detected kind. *)
Definition kind_events (kind : k8s.Kind) : list event :=
  if bool_decide (kind ≠ k8s.KindUnknown)
  then [Logged (LogAutodetectedKind kind)]
  else [].

(** Lines 131-137 as a function: the cluster name after the adoption step. *)
Definition adopted_name (p : Parameters) (fl : k8s.Flavor) : string :=
  if bool_decide (ClusterName p = "") && bool_decide (k8s.ClusterName fl ≠ "")
  then strings.ReplaceAll (k8s.ClusterName fl) "_" "-"
  else ClusterName p.

Definition adopted_events (p : Parameters) (fl : k8s.Flavor) : list event :=
  if bool_decide (ClusterName p = "") && bool_decide (k8s.ClusterName fl ≠ "")
  then [Logged (LogAutodetectedClusterName (strings.ReplaceAll (k8s.ClusterName fl) "_" "-"))]
  else [].

(** The three trace entries of a failing check (lines 121-123). *)
Definition failed_events (name : string) (err : error) : list event :=
  [CalledCheck name; Logged (LogCheckFailed name err); Logged (LogDisableHint name)].

(** [func (k *K8sUninstaller) autodetect(ctx)], lines 45-51, with the
    uninstaller and the trace passed explicitly. *)
Definition K8sUninstaller_autodetect (k : K8sUninstaller) (tr : list event)
    : K8sUninstaller * list event :=
  let tr := tr ++ [CalledAutodetectFlavor] in
  let k := mkK8sUninstaller AutodetectFlavor in
  if bool_decide (k8s.Kind_ (uflavor k) ≠ k8s.KindUnknown)
  then (k, tr ++ [Logged (LogAutodetectedKind (k8s.Kind_ (uflavor k)))])
  else (k, tr).

(** *** Reading a run *)

(** The result of a run and the installer and trace it leaves behind. *)
Definition result {A : Type} (m : M A) (w : world) : outcome A := (m w).1.
Definition final {A : Type} (m : M A) (w : world) : K8sInstaller := installer (m w).2.
Definition events {A : Type} (m : M A) (w : world) : list event :=
  drop (length (trace w)) (trace (m w).2).

(** What the loop of [runChecks] adds to the trace for checks that are all
    disabled or passing: a skip notice or a call, in order. *)
Definition passed_events (p : Parameters) (checks : list validationCheck) : list event :=
  (λ c, if checkDisabled p (Name c)
        then Logged (LogSkippingDisabled (Name c))
        else CalledCheck (Name c)) <$> checks.

(** A check lets the loop go on: it is disabled or it returns no error. *)
Definition passes (k : K8sInstaller) (c : validationCheck) : bool :=
  checkDisabled (params k) (Name c) || bool_decide (Check c k = None).

(** Lines 63-66 and 87-90, the default of [KubeProxyReplacement], as a
    function of the parameters, and the line it logs. *)
Definition kpr_default (withKPR : bool) (p : Parameters) : Parameters :=
  if withKPR && bool_decide (KubeProxyReplacement p = "")
  then with_KubeProxyReplacement "disabled" p
  else p.

Definition kpr_events (withKPR : bool) (p : Parameters) : list event :=
  if withKPR && bool_decide (KubeProxyReplacement p = "")
  then [Logged LogKPRDisabled]
  else [].

(** Lines 95-97: the line logged for a resolved mode. *)
Definition mode_events (p : Parameters) : list event :=
  if bool_decide (DatapathMode p ≠ "")
  then [Logged (LogAutodetectedDatapathMode (DatapathMode p))]
  else [].

(** The trace of [autodetectAndValidate] up to the call of
    [detectDatapathMode] when every check passes: detection, the checks, the
    version line and the adoption of the cluster name. *)
Definition before_datapath_events (p : Parameters) (ver : string) : list event :=
  let kind := k8s.Kind_ AutodetectFlavor in
  let checks := registry !!! kind in
  [CalledAutodetectFlavor] ++ kind_events kind ++
  (if 0 <? length checks
   then Logged (LogRunningChecks kind) :: passed_events p checks
   else []) ++
  [Logged (LogUsingVersion ver)] ++ adopted_events p AutodetectFlavor.

Definition with_DisableChecks (v : list string) (p : Parameters) : Parameters :=
  mkParameters v (DatapathMode p) (KubeProxyReplacement p) (ClusterName p)
    (Encryption p) (IPAM p) (Azure p).

(** The world whose [DisableChecks] is [ds], everything else as in [w]. *)
Definition disabling (ds : list string) (w : world) : world :=
  mkWorld
    (mkK8sInstaller (with_DisableChecks ds (params (installer w)))
       (flavor (installer w)) (chartVersion (installer w)))
    (trace w).

(** The world whose cluster name is [name], everything else as in [w]. *)
Definition named (name : string) (w : world) : world :=
  mkWorld
    (mkK8sInstaller (with_ClusterName name (params (installer w)))
       (flavor (installer w)) (chartVersion (installer w)))
    (trace w).

(** A stage gives the same result, the same events and the same installer
    whatever [DisableChecks] holds. *)
Definition ignores_DisableChecks {A : Type} (m : M A) : Prop :=
  ∀ ds w, m (disabling ds w) = ((m w).1, disabling ds (m w).2).

(** An event that is a logged line. *)
Definition is_logged (e : event) : Prop := ∃ line, e = Logged line.

(** The names of the checks called in a trace, in the order of the calls,
    and the names of the checks of a list that are not disabled. *)
Definition called_checks (evs : list event) : list string :=
  omap (λ e, match e with CalledCheck name => Some name | _ => None end) evs.

Definition enabled_names (p : Parameters) (checks : list validationCheck) : list string :=
  filter (λ name, checkDisabled p name = false) (Name <$> checks).

(** An event that is not the call of a check. *)
Definition not_check (e : event) : Prop := ∀ name, e ≠ CalledCheck name.

(** *** Unfolding lemmas *)

Lemma bind_run {A B : Type} (m : M A) (f : A → M B) (w : world) :
  (m ≫= f) w = match m w with
               | (Return a, w') => f a w'
               | (Fail err, w') => (Fail err, w')
               end.
Proof. reflexivity. Qed.

Lemma checkDisabled_elem_of (p : Parameters) (name : string) :
  checkDisabled p name = true ↔ name ∈ DisableChecks p.
Proof.
  unfold checkDisabled. induction (DisableChecks p) as [|n ns IH]; simpl.
  - split; [done | by intros ?%elem_of_nil].
  - rewrite elem_of_cons. destruct (String.eqb_spec n name) as [->|Hne].
    + split; auto.
    + rewrite IH. split; [auto | intros [->|?]; done].
Qed.

(** Unfolds the monad's operations in a run. *)
Ltac unfold_M :=
  unfold when, Log, emit, get, setParams, setFlavor, fail, mbind, M_bind, mret, M_ret.

(** Case analysis on a [bool_decide] test of the goal. *)
Ltac case_goal_bool :=
  match goal with
  | |- context [bool_decide ?P] => destruct (bool_decide P) eqn:?
  end.

(** **** Runs of [detectDatapathMode] *)

Lemma detectDatapathMode_set (withKPR : bool) (w : world) :
  DatapathMode (params (installer w)) ≠ "" →
  detectDatapathMode withKPR w =
    (Return tt,
     mkWorld (installer w)
       (trace w ++ [Logged (LogCustomDatapathMode (DatapathMode (params (installer w))))])).
Proof.
  intros Hset. unfold detectDatapathMode. unfold_M. cbn [installer].
  by destruct (decide (DatapathMode (params (installer w)) ≠ "")).
Qed.

Lemma detectDatapathMode_Kind (withKPR : bool) p fl ver tr :
  DatapathMode p = "" → k8s.Kind_ fl = k8s.KindKind →
  let p' := with_DatapathMode DatapathTunnel p in
  detectDatapathMode withKPR (mkWorld (mkK8sInstaller p fl ver) tr) =
    (Return tt,
     mkWorld (mkK8sInstaller (kpr_default withKPR p') fl ver)
       (tr ++ kpr_events withKPR p' ++ mode_events (kpr_default withKPR p'))).
Proof.
  intros Hunset Hkind p'. unfold detectDatapathMode. unfold_M.
  cbn [installer params flavor chartVersion trace]. rewrite Hunset, Hkind.
  destruct (decide ("" ≠ "")) as [?|_]; [done|].
  cbn [installer params flavor chartVersion trace]. fold p'.
  unfold kpr_default, kpr_events, mode_events.
  destruct (withKPR && bool_decide (KubeProxyReplacement p' = "")) eqn:Hk;
    cbn [installer params flavor chartVersion trace];
    case_goal_bool; cbn [installer trace]; by rewrite ?app_nil_r, <- ?app_assoc.
Qed.

Lemma detectDatapathMode_plain (withKPR : bool) p fl ver tr :
  DatapathMode p = "" →
  k8s.Kind_ fl ≠ k8s.KindKind → k8s.Kind_ fl ≠ k8s.KindAKS →
  let p' := with_DatapathMode (plain_mode (k8s.Kind_ fl)) p in
  detectDatapathMode withKPR (mkWorld (mkK8sInstaller p fl ver) tr) =
    (Return tt, mkWorld (mkK8sInstaller p' fl ver) (tr ++ mode_events p')).
Proof.
  intros Hunset HnK HnA p'. unfold detectDatapathMode. unfold_M.
  cbn [installer params flavor chartVersion trace]. rewrite Hunset.
  destruct (decide ("" ≠ "")) as [?|_]; [done|].
  subst p'. unfold mode_events.
  destruct (k8s.Kind_ fl); try done;
    cbn [installer params flavor chartVersion trace plain_mode];
    case_goal_bool; cbn [installer trace]; by rewrite ?app_nil_r.
Qed.

Lemma detectDatapathMode_AKS_error (withKPR : bool) p fl ver tr err :
  DatapathMode p = "" → k8s.Kind_ fl = k8s.KindAKS → DetectBYOCNI = inl err →
  detectDatapathMode withKPR (mkWorld (mkK8sInstaller p fl ver) tr) =
    (Fail err, mkWorld (mkK8sInstaller p fl ver) (tr ++ [CalledAzureAutodetect])).
Proof.
  intros Hunset Hkind Herr. unfold detectDatapathMode, azureAutodetect. unfold_M.
  cbn [installer params flavor chartVersion trace]. rewrite Hunset, Hkind, Herr.
  by destruct (decide ("" ≠ "")) as [?|_].
Qed.

Lemma detectDatapathMode_AKS_ok (withKPR : bool) p fl ver tr byocni :
  DatapathMode p = "" → k8s.Kind_ fl = k8s.KindAKS → DetectBYOCNI = inr byocni →
  let p' := with_DatapathMode (if byocni then DatapathAKSBYOCNI else DatapathAzure)
              (with_IsBYOCNI byocni p) in
  detectDatapathMode withKPR (mkWorld (mkK8sInstaller p fl ver) tr) =
    (Return tt,
     mkWorld (mkK8sInstaller (kpr_default withKPR p') fl ver)
       (tr ++ [CalledAzureAutodetect] ++ kpr_events withKPR p' ++
        mode_events (kpr_default withKPR p'))).
Proof.
  intros Hunset Hkind Hok p'. unfold detectDatapathMode, azureAutodetect. unfold_M.
  cbn [installer params flavor chartVersion trace]. rewrite Hunset, Hkind, Hok.
  destruct (decide ("" ≠ "")) as [?|_]; [done|].
  cbn [installer params flavor chartVersion trace with_IsBYOCNI Azure IsBYOCNI].
  assert (Hp' : p' = with_DatapathMode (if byocni then DatapathAKSBYOCNI else DatapathAzure)
                       (with_IsBYOCNI byocni p)) by done.
  clearbody p'.
  destruct byocni; cbn [installer params flavor chartVersion trace];
    rewrite <- Hp'; unfold kpr_default, kpr_events, mode_events;
    destruct (withKPR && bool_decide (KubeProxyReplacement p' = "")) eqn:Hk;
    cbn [installer params flavor chartVersion trace];
    case_goal_bool; cbn [installer trace]; by rewrite ?app_nil_r, <- ?app_assoc.
Qed.

(** **** Runs of the other stages *)

Lemma autodetect_run p fl ver tr :
  autodetect (mkWorld (mkK8sInstaller p fl ver) tr) =
    (Return tt,
     mkWorld (mkK8sInstaller p AutodetectFlavor ver)
       (tr ++ [CalledAutodetectFlavor] ++ kind_events (k8s.Kind_ AutodetectFlavor))).
Proof.
  unfold autodetect, kind_events. unfold_M.
  cbn [installer params flavor chartVersion trace].
  case_goal_bool; cbn [installer trace]; by rewrite ?app_nil_r, <- ?app_assoc.
Qed.

Lemma adoptClusterName_run p fl ver tr :
  adoptClusterName (mkWorld (mkK8sInstaller p fl ver) tr) =
    (Return tt,
     mkWorld (mkK8sInstaller (with_ClusterName (adopted_name p fl) p) fl ver)
       (tr ++ adopted_events p fl)).
Proof.
  unfold adoptClusterName, adopted_name, adopted_events. unfold_M.
  cbn [installer params flavor chartVersion trace].
  destruct (bool_decide (ClusterName p = "")) eqn:Hp;
    [destruct (bool_decide (k8s.ClusterName fl ≠ ""))|];
    cbn [installer params flavor chartVersion trace andb];
    rewrite ?app_nil_r; try done.
  all: by destruct p.
Qed.

Lemma clusterNameGate_run (w : world) :
  let name := ClusterName (params (installer w)) in
  clusterNameGate w =
    if strings.Contains name "." then
      (Fail InvalidClusterNameDots,
       mkWorld (installer w) (trace w ++ [Logged (LogClusterNameDots name)]))
    else if regexp.MatchString clusterNameValidation name then (Return tt, w)
    else
      (Fail InvalidClusterName,
       mkWorld (installer w)
         (trace w ++ [Logged (LogClusterNameInvalid name clusterNameValidation)])).
Proof.
  intros name. unfold clusterNameGate. unfold_M. fold name.
  destruct (strings.Contains name "."); [done|].
  by destruct (regexp.MatchString clusterNameValidation name).
Qed.

Lemma encryptionGate_run (w : world) :
  let mode := Encryption (params (installer w)) in
  encryptionGate w =
    if bool_decide (mode ∈ [encryptionDisabled; encryptionIPsec; encryptionWireguard])
    then (Return tt, w)
    else (Fail InvalidEncryptionMode,
          mkWorld (installer w) (trace w ++ [Logged (LogInvalidEncryption mode)])).
Proof.
  intros mode. unfold encryptionGate. unfold_M. fold mode.
  by case_goal_bool.
Qed.

(** **** Runs of the check loop *)

Lemma runChecks_pass (checks : list validationCheck) k tr :
  forallb (passes k) checks = true →
  runChecks checks (mkWorld k tr) =
    (Return tt, mkWorld k (tr ++ passed_events (params k) checks)).
Proof.
  revert tr. induction checks as [|c rest IH]; intros tr Hpass.
  - cbn. by rewrite app_nil_r.
  - cbn [forallb] in Hpass. apply andb_true_iff in Hpass as [Hc Hrest].
    cbn [runChecks]. unfold_M. cbn [installer trace].
    unfold passed_events. cbn [fmap list_fmap]. fold (passed_events (params k) rest).
    unfold passes in Hc.
    destruct (checkDisabled (params k) (Name c)) eqn:Hdis.
    + cbn [installer trace]. rewrite IH by done. by rewrite <- app_assoc.
    + cbn [installer trace]. apply bool_decide_eq_true in Hc. rewrite Hc.
      rewrite IH by done. by rewrite <- app_assoc.
Qed.

Lemma runChecks_fail (pre post : list validationCheck) c err k tr :
  forallb (passes k) pre = true →
  checkDisabled (params k) (Name c) = false →
  Check c k = Some err →
  runChecks (pre ++ c :: post) (mkWorld k tr) =
    (Fail (ValidationCheckFailed (k8s.Kind_ (flavor k)) err),
     mkWorld k (tr ++ passed_events (params k) pre ++ failed_events (Name c) err)).
Proof.
  intros Hpre Hdis Herr. revert tr Hpre.
  induction pre as [|c' pre IH]; intros tr Hpre.
  - cbn [app runChecks]. unfold_M. cbn [installer trace]. rewrite Hdis.
    cbn [installer trace]. rewrite Herr. cbn [installer trace].
    unfold failed_events. cbn. by rewrite <- !app_assoc.
  - cbn [forallb] in Hpre. apply andb_true_iff in Hpre as [Hc Hrest].
    cbn [app runChecks]. unfold_M. cbn [installer trace].
    unfold passed_events. cbn [fmap list_fmap]. fold (passed_events (params k) pre).
    unfold passes in Hc.
    destruct (checkDisabled (params k) (Name c')) eqn:Hdis'.
    + cbn [installer trace]. rewrite IH by done. by rewrite <- !app_assoc.
    + cbn [installer trace]. apply bool_decide_eq_true in Hc. rewrite Hc.
      rewrite IH by done. by rewrite <- !app_assoc.
Qed.

(** Either every check passes or there is a first one that fails. *)
Lemma checks_split (checks : list validationCheck) k :
  forallb (passes k) checks = true ∨
  ∃ pre c post err,
    checks = pre ++ c :: post ∧ forallb (passes k) pre = true ∧
    checkDisabled (params k) (Name c) = false ∧ Check c k = Some err.
Proof.
  induction checks as [|c rest IH]; [by left|].
  destruct (passes k c) eqn:Hc.
  - destruct IH as [Hall|(pre & c' & post & err & -> & Hpre & Hdis & Herr)].
    + left. cbn. by rewrite Hc.
    + right. exists (c :: pre), c', post, err. cbn. by rewrite Hc.
  - right. unfold passes in Hc. apply orb_false_iff in Hc as [Hdis Hsome].
    apply bool_decide_eq_false in Hsome.
    destruct (Check c k) as [err|] eqn:Herr; [|done].
    by exists [], c, rest, err.
Qed.

Lemma runValidationChecks_pass k tr :
  let checks := registry !!! k8s.Kind_ (flavor k) in
  forallb (passes k) checks = true →
  runValidationChecks (mkWorld k tr) =
    (Return tt,
     mkWorld k
       (tr ++ if 0 <? length checks
              then Logged (LogRunningChecks (k8s.Kind_ (flavor k))) ::
                   passed_events (params k) checks
              else [])).
Proof.
  intros checks Hpass. unfold runValidationChecks. unfold_M.
  cbn [installer trace]. fold checks.
  destruct (0 <? length checks).
  - cbn [installer trace]. rewrite runChecks_pass by done.
    by rewrite <- app_assoc.
  - by rewrite app_nil_r.
Qed.

Lemma runValidationChecks_fail (pre post : list validationCheck) c err k tr :
  registry !!! k8s.Kind_ (flavor k) = pre ++ c :: post →
  forallb (passes k) pre = true →
  checkDisabled (params k) (Name c) = false →
  Check c k = Some err →
  runValidationChecks (mkWorld k tr) =
    (Fail (ValidationCheckFailed (k8s.Kind_ (flavor k)) err),
     mkWorld k
       (tr ++ [Logged (LogRunningChecks (k8s.Kind_ (flavor k)))] ++
        passed_events (params k) pre ++ failed_events (Name c) err)).
Proof.
  intros Hreg Hpre Hdis Herr. unfold runValidationChecks. unfold_M.
  cbn [installer trace]. rewrite Hreg.
  replace (0 <? length (pre ++ c :: post)) with true
    by (symmetry; apply Nat.ltb_lt; rewrite length_app; simpl; lia).
  cbn [installer trace]. rewrite (runChecks_fail pre post c err) by done.
  by rewrite <- app_assoc.
Qed.

(** **** What [detectDatapathMode] can do to a world, in one statement *)

Lemma kpr_default_fields (withKPR : bool) p :
  DisableChecks (kpr_default withKPR p) = DisableChecks p ∧
  DatapathMode (kpr_default withKPR p) = DatapathMode p ∧
  ClusterName (kpr_default withKPR p) = ClusterName p ∧
  Encryption (kpr_default withKPR p) = Encryption p ∧
  IPAM (kpr_default withKPR p) = IPAM p ∧
  Azure (kpr_default withKPR p) = Azure p ∧
  KubeProxyReplacement (kpr_default withKPR p) =
    (if withKPR && bool_decide (KubeProxyReplacement p = "")
     then "disabled" else KubeProxyReplacement p).
Proof. unfold kpr_default. by destruct (withKPR && _). Qed.

Lemma kpr_default_set (withKPR : bool) p :
  KubeProxyReplacement p ≠ "" →
  KubeProxyReplacement (kpr_default withKPR p) = KubeProxyReplacement p.
Proof.
  intros Hset. destruct (kpr_default_fields withKPR p) as (_&_&_&_&_&_&->).
  rewrite bool_decide_eq_false_2 by done. by rewrite andb_false_r.
Qed.

Lemma not_check_kpr_events withKPR p : Forall not_check (kpr_events withKPR p).
Proof.
  unfold kpr_events. destruct (withKPR && _); repeat constructor; by intros ?.
Qed.

Lemma not_check_mode_events p : Forall not_check (mode_events p).
Proof.
  unfold mode_events. destruct (bool_decide _); repeat constructor; by intros ?.
Qed.

Lemma detectDatapathMode_cases (withKPR : bool) p fl ver tr :
  ∃ r p' evs,
    detectDatapathMode withKPR (mkWorld (mkK8sInstaller p fl ver) tr) =
      (r, mkWorld (mkK8sInstaller p' fl ver) (tr ++ evs)) ∧
    Forall not_check evs ∧
    DisableChecks p' = DisableChecks p ∧ ClusterName p' = ClusterName p ∧
    Encryption p' = Encryption p ∧ IPAM p' = IPAM p ∧
    (KubeProxyReplacement p ≠ "" → KubeProxyReplacement p' = KubeProxyReplacement p) ∧
    (DatapathMode p ≠ "" → r = Return tt ∧ p' = p) ∧
    (r = Return tt ∨
     ∃ err, r = Fail err ∧ DetectBYOCNI = inl err ∧ p' = p ∧
            k8s.Kind_ fl = k8s.KindAKS ∧ DatapathMode p = "").
Proof.
  destruct (decide (DatapathMode p ≠ "")) as [Hset|Hunset%dec_stable].
  { rewrite detectDatapathMode_set by done. cbn [installer params trace].
    eexists _, _, _. split; [reflexivity|]. split_and!; try done; [|by left].
    repeat constructor. by intros ?. }
  destruct (decide (k8s.Kind_ fl = k8s.KindKind)) as [HK|HnK].
  { eexists _, _, _. split; [by apply detectDatapathMode_Kind|].
    destruct (kpr_default_fields withKPR (with_DatapathMode DatapathTunnel p))
      as (?&?&?&?&?&?&?).
    split_and!; try done; [| |by left].
    - apply Forall_app; split; [apply not_check_kpr_events|apply not_check_mode_events].
    - intros Hkpr. by rewrite kpr_default_set. }
  destruct (decide (k8s.Kind_ fl = k8s.KindAKS)) as [HA|HnA].
  - destruct DetectBYOCNI as [err|byocni] eqn:Hlookup.
    + eexists _, _, _. split; [by apply detectDatapathMode_AKS_error|].
      split_and!; try done; [|right; by exists err].
      repeat constructor. by intros ?.
    + eexists _, _, _. split; [by apply detectDatapathMode_AKS_ok|].
      match goal with
      | |- context [kpr_default withKPR ?q] =>
          destruct (kpr_default_fields withKPR q) as (?&?&?&?&?&?&?)
      end.
      split_and!; try done; [| |by left].
      * constructor; [by intros ?|].
        apply Forall_app; split; [apply not_check_kpr_events|apply not_check_mode_events].
      * intros Hkpr. by rewrite kpr_default_set.
  - eexists _, _, _. split; [by apply detectDatapathMode_plain|].
    split_and!; try done; [|by left]. apply not_check_mode_events.
Qed.

(** *** The datapath resolver: idempotence, user precedence, rule table *)

Lemma with_DatapathMode_id v p : DatapathMode p = v → with_DatapathMode v p = p.
Proof. intros <-. by destruct p. Qed.

Lemma with_IsBYOCNI_id b p : IsBYOCNI (Azure p) = b → with_IsBYOCNI b p = p.
Proof. intros <-. by destruct p as [? ? ? ? ? ? []]. Qed.

Lemma kpr_default_idem (withKPR : bool) p :
  kpr_default withKPR (kpr_default withKPR p) = kpr_default withKPR p.
Proof.
  unfold kpr_default. destruct withKPR; [|done]. cbn [andb].
  destruct (bool_decide (KubeProxyReplacement p = "")) eqn:Hk; [|by rewrite Hk].
  done.
Qed.

(** C4: a second pass of the datapath resolution leaves [InstallParameters]
    as the first pass left them; and on a state whose [DatapathMode] is
    already non-empty a pass returns success and alters nothing of the
    installer. *)
Theorem detectDatapathMode_idempotent (withKPR : bool) (w : world) :
  params (final (detectDatapathMode withKPR) (detectDatapathMode withKPR w).2)
    = params (final (detectDatapathMode withKPR) w) ∧
  (DatapathMode (params (installer w)) ≠ "" →
   result (detectDatapathMode withKPR) w = Return tt ∧
   final (detectDatapathMode withKPR) w = installer w).
Proof.
  unfold result, final. split; [|intros Hset; by rewrite detectDatapathMode_set].
  destruct w as [[p fl ver] tr].
  (* a second pass over a world whose first pass is known *)
  assert (Hagain : ∀ r p' tr',
            detectDatapathMode withKPR (mkWorld (mkK8sInstaller p fl ver) tr) =
              (r, mkWorld (mkK8sInstaller p' fl ver) tr') →
            (DatapathMode p' = "" →
             params (installer (detectDatapathMode withKPR
                                  (mkWorld (mkK8sInstaller p' fl ver) tr')).2) = p') →
            params (installer (detectDatapathMode withKPR
                                 (detectDatapathMode withKPR
                                    (mkWorld (mkK8sInstaller p fl ver) tr)).2).2)
              = params (installer (detectDatapathMode withKPR
                                     (mkWorld (mkK8sInstaller p fl ver) tr)).2)).
  { intros r p' tr' -> Hunset'. cbn [snd installer params].
    destruct (decide (DatapathMode p' ≠ "")) as [Hset'|Hempty%dec_stable].
    - by rewrite detectDatapathMode_set.
    - by apply Hunset'. }
  destruct (decide (DatapathMode p ≠ "")) as [Hset|Hunset%dec_stable].
  { eapply Hagain; [by apply (detectDatapathMode_set withKPR (mkWorld _ tr))|].
    cbn [installer params]. intros Hempty. by rewrite Hempty in Hset. }
  destruct (decide (k8s.Kind_ fl = k8s.KindKind)) as [HK|HnK].
  { eapply Hagain; [by apply detectDatapathMode_Kind|]. intros Hempty.
    rewrite detectDatapathMode_Kind by done. cbn [snd installer params].
    rewrite with_DatapathMode_id, kpr_default_idem; [done|].
    by destruct (kpr_default_fields withKPR (with_DatapathMode DatapathTunnel p))
      as (_&->&_). }
  destruct (decide (k8s.Kind_ fl = k8s.KindAKS)) as [HA|HnA].
  - destruct DetectBYOCNI as [err|byocni] eqn:Hlookup.
    + eapply Hagain; [by apply detectDatapathMode_AKS_error|]. intros _.
      by rewrite (detectDatapathMode_AKS_error _ _ _ _ _ err).
    + eapply Hagain; [by apply detectDatapathMode_AKS_ok|]. intros Hempty.
      rewrite (detectDatapathMode_AKS_ok _ _ _ _ _ byocni) by done.
      cbn [snd installer params].
      match goal with
      | |- context [with_IsBYOCNI byocni (kpr_default withKPR ?q)] =>
          destruct (kpr_default_fields withKPR q) as (_&Hdm&_&_&_&Haz&_)
      end.
      rewrite with_IsBYOCNI_id by (by rewrite Haz).
      rewrite with_DatapathMode_id by (by rewrite Hdm).
      apply kpr_default_idem.
  - eapply Hagain; [by apply detectDatapathMode_plain|]. intros Hempty.
    rewrite detectDatapathMode_plain by done. cbn [snd installer params].
    by rewrite with_DatapathMode_id.
Qed.

(** C2: whatever the detected flavor, a [DatapathMode],
    [KubeProxyReplacement] or [ClusterName] that is non-empty before the
    resolution is left as it is by the cluster-name adoption step, by
    [detectDatapathMode], and by the two in sequence as
    [autodetectAndValidate] runs them. *)
Theorem resolution_keeps_preset_fields (withKPR : bool) (w : world) :
  let resolve := adoptClusterName;; detectDatapathMode withKPR in
  let p := params (installer w) in
  (DatapathMode p ≠ "" →
   DatapathMode (params (final adoptClusterName w)) = DatapathMode p ∧
   DatapathMode (params (final (detectDatapathMode withKPR) w)) = DatapathMode p ∧
   DatapathMode (params (final resolve w)) = DatapathMode p) ∧
  (KubeProxyReplacement p ≠ "" →
   KubeProxyReplacement (params (final adoptClusterName w)) = KubeProxyReplacement p ∧
   KubeProxyReplacement (params (final (detectDatapathMode withKPR) w)) = KubeProxyReplacement p ∧
   KubeProxyReplacement (params (final resolve w)) = KubeProxyReplacement p) ∧
  (ClusterName p ≠ "" →
   ClusterName (params (final adoptClusterName w)) = ClusterName p ∧
   ClusterName (params (final (detectDatapathMode withKPR) w)) = ClusterName p ∧
   ClusterName (params (final resolve w)) = ClusterName p).
Proof.
  destruct w as [[p fl ver] tr]. cbn zeta. unfold final.
  rewrite bind_run, adoptClusterName_run. cbn [installer params snd].
  destruct (detectDatapathMode_cases withKPR p fl ver tr)
    as (r & p1 & evs & -> & _ & _ & Hcn & _ & _ & Hkpr & Hdm & _).
  destruct (detectDatapathMode_cases withKPR
              (with_ClusterName (adopted_name p fl) p) fl ver
              (tr ++ adopted_events p fl))
    as (r' & p2 & evs' & -> & _ & _ & Hcn' & _ & _ & Hkpr' & Hdm' & _).
  cbn [installer params snd with_ClusterName DatapathMode KubeProxyReplacement
       ClusterName] in *.
  split_and!.
  - intros Hset. destruct (Hdm Hset) as [_ ->]. by destruct (Hdm' Hset) as [_ ->].
  - intros Hset. by rewrite Hkpr, Hkpr'.
  - intros Hset. rewrite Hcn, Hcn'. unfold adopted_name.
    by rewrite bool_decide_eq_false_2.
Qed.

(** C3, amended: with [DatapathMode] unset, [detectDatapathMode] succeeds on
    every flavor but the AKS one and resolves Kind to the tunnel mode,
    setting [KubeProxyReplacement] to "disabled" when it was unset and the
    caller passed [withKPR = true] (as [autodetectAndValidate] does);
    minikube to tunnel; EKS to the AWS ENI mode; GKE to the GKE mode; and
    every flavor other than these and AKS, unknown included, to tunnel.
    Outside the Kind case [KubeProxyReplacement] is left as it was. *)
Theorem detectDatapathMode_rule_table (withKPR : bool) (w : world) :
  DatapathMode (params (installer w)) = "" →
  let kind := k8s.Kind_ (flavor (installer w)) in
  let kpr := KubeProxyReplacement (params (installer w)) in
  let p' := params (final (detectDatapathMode withKPR) w) in
  (kind ≠ k8s.KindAKS → result (detectDatapathMode withKPR) w = Return tt) ∧
  (kind = k8s.KindKind →
   DatapathMode p' = DatapathTunnel ∧
   KubeProxyReplacement p' =
     if withKPR && bool_decide (kpr = "") then "disabled" else kpr) ∧
  (kind = k8s.KindMinikube →
   DatapathMode p' = DatapathTunnel ∧ KubeProxyReplacement p' = kpr) ∧
  (kind = k8s.KindEKS →
   DatapathMode p' = DatapathAwsENI ∧ KubeProxyReplacement p' = kpr) ∧
  (kind = k8s.KindGKE →
   DatapathMode p' = DatapathGKE ∧ KubeProxyReplacement p' = kpr) ∧
  (kind ∉ [k8s.KindKind; k8s.KindMinikube; k8s.KindEKS; k8s.KindGKE; k8s.KindAKS] →
   DatapathMode p' = DatapathTunnel ∧ KubeProxyReplacement p' = kpr).
Proof.
  destruct w as [[p fl ver] tr]. cbn [installer params flavor]. intros Hunset.
  cbn zeta. unfold result, final.
  assert (Hplain : k8s.Kind_ fl ≠ k8s.KindKind → k8s.Kind_ fl ≠ k8s.KindAKS →
            detectDatapathMode withKPR (mkWorld (mkK8sInstaller p fl ver) tr) =
              (Return tt,
               mkWorld (mkK8sInstaller
                          (with_DatapathMode (plain_mode (k8s.Kind_ fl)) p) fl ver)
                 (tr ++ mode_events (with_DatapathMode (plain_mode (k8s.Kind_ fl)) p))))
    by (intros; by apply detectDatapathMode_plain).
  split_and!.
  - intros HnA. destruct (decide (k8s.Kind_ fl = k8s.KindKind)) as [HK|HnK].
    + by rewrite detectDatapathMode_Kind.
    + by rewrite Hplain.
  - intros HK. rewrite detectDatapathMode_Kind by done. cbn [snd installer params].
    by destruct (kpr_default_fields withKPR (with_DatapathMode DatapathTunnel p))
      as (_&->&_&_&_&_&->).
  - intros Hk. rewrite Hplain by (by rewrite Hk). by rewrite Hk.
  - intros Hk. rewrite Hplain by (by rewrite Hk). by rewrite Hk.
  - intros Hk. rewrite Hplain by (by rewrite Hk). by rewrite Hk.
  - intros Hk. rewrite !not_elem_of_cons in Hk.
    destruct Hk as (HnK & HnM & HnE & HnG & HnA & _).
    rewrite Hplain by done. cbn [snd installer params].
    by destruct (k8s.Kind_ fl).
Qed.

(** The outcomes of [detectDatapathMode] on the AKS flavor. *)
Lemma detectDatapathMode_AKS_outcomes (withKPR : bool) (w : world) :
  DatapathMode (params (installer w)) = "" →
  k8s.Kind_ (flavor (installer w)) = k8s.KindAKS →
  let kpr := KubeProxyReplacement (params (installer w)) in
  let p' := params (final (detectDatapathMode withKPR) w) in
  (∀ err, DetectBYOCNI = inl err →
     result (detectDatapathMode withKPR) w = Fail err ∧
     final (detectDatapathMode withKPR) w = installer w ∧
     DatapathMode p' = "") ∧
  (∀ byocni, DetectBYOCNI = inr byocni →
     result (detectDatapathMode withKPR) w = Return tt ∧
     DatapathMode p' = (if byocni then DatapathAKSBYOCNI else DatapathAzure) ∧
     KubeProxyReplacement p' =
       if withKPR && bool_decide (kpr = "") then "disabled" else kpr).
Proof.
  destruct w as [[p fl ver] tr]. cbn [installer params flavor].
  intros Hunset HA. cbn zeta. unfold result, final. split.
  - intros err Herr. by rewrite (detectDatapathMode_AKS_error _ _ _ _ _ err).
  - intros byocni Hok. rewrite (detectDatapathMode_AKS_ok _ _ _ _ _ byocni) by done.
    cbn [fst snd installer params].
    match goal with
    | |- context [kpr_default withKPR ?q] =>
        destruct (kpr_default_fields withKPR q) as (_&->&_&_&_&_&->)
    end.
    by destruct byocni.
Qed.

(** *** Runs of [autodetectAndValidate] through the check stage *)

Lemma autodetectAndValidate_checks_pass p fl ver tr :
  let k1 := mkK8sInstaller p AutodetectFlavor ver in
  forallb (passes k1) (registry !!! k8s.Kind_ AutodetectFlavor) = true →
  autodetectAndValidate (mkWorld (mkK8sInstaller p fl ver) tr) =
    (detectDatapathMode true;; configurationGate)
      (mkWorld
         (mkK8sInstaller (with_ClusterName (adopted_name p AutodetectFlavor) p)
            AutodetectFlavor ver)
         (tr ++ before_datapath_events p ver)).
Proof.
  intros k1 Hpass. unfold autodetectAndValidate.
  rewrite bind_run, autodetect_run. fold k1.
  rewrite bind_run, runValidationChecks_pass by done.
  rewrite bind_run. unfold get at 1. cbn [installer].
  rewrite bind_run. unfold Log at 1, emit at 1. cbn [installer trace chartVersion k1].
  rewrite bind_run. subst k1. rewrite adoptClusterName_run.
  unfold before_datapath_events. cbn [flavor params].
  by rewrite <- !app_assoc.
Qed.

Lemma autodetectAndValidate_checks_fail (pre post : list validationCheck) c err
    p fl ver tr :
  let k1 := mkK8sInstaller p AutodetectFlavor ver in
  let kind := k8s.Kind_ AutodetectFlavor in
  registry !!! kind = pre ++ c :: post →
  forallb (passes k1) pre = true →
  checkDisabled p (Name c) = false →
  Check c k1 = Some err →
  autodetectAndValidate (mkWorld (mkK8sInstaller p fl ver) tr) =
    (Fail (ValidationCheckFailed kind err),
     mkWorld k1
       (tr ++ [CalledAutodetectFlavor] ++ kind_events kind ++
        [Logged (LogRunningChecks kind)] ++ passed_events p pre ++
        failed_events (Name c) err)).
Proof.
  intros k1 kind Hreg Hpre Hdis Herr. unfold autodetectAndValidate.
  rewrite bind_run, autodetect_run. fold k1.
  rewrite bind_run, (runValidationChecks_fail pre post c err) by done.
  cbn [flavor params k1]. fold kind. by rewrite <- !app_assoc.
Qed.

(** *** The configuration gate *)

Lemma configurationGate_run (w : world) :
  let ipam := IPAM (params (installer w)) in
  configurationGate w =
    (clusterNameGate;; encryptionGate)
      (mkWorld (installer w)
         (trace w ++ if bool_decide (ipam ≠ "") then [Logged (LogCustomIPAM ipam)] else [])).
Proof.
  intros ipam. unfold configurationGate. rewrite bind_run. unfold get at 1.
  cbn [installer]. fold ipam. rewrite bind_run. unfold when.
  case_goal_bool; unfold_M; cbn [installer trace]; [done|].
  rewrite app_nil_r. by destruct w.
Qed.

(** The pattern matches no name of one character: after the first class the
    group still asks for a character of the last class. *)
Lemma clusterNameValidation_one_character (c : ascii) :
  regexp.MatchString clusterNameValidation (String c EmptyString) = false.
Proof.
  unfold clusterNameValidation. cbn [regexp.MatchString regexp.deriv regexp.nullable].
  by destruct (regexp.in_class c _).
Qed.

(** C1: the verdicts of the cluster-name tests on the six names of the
    acceptance table.  Five are as the table has them; the one-character
    name "a" is rejected with the pattern-mismatch error, as is every name
    of one character, because the group of the pattern carries no
    quantifier and so asks for a second character. *)
Theorem clusterNameGate_table (w : world) :
  result clusterNameGate (named "my-cluster" w) = Return tt ∧
  result clusterNameGate (named "a" w) = Fail InvalidClusterName ∧
  result clusterNameGate (named "My-Cluster" w) = Fail InvalidClusterName ∧
  result clusterNameGate (named "-abc" w) = Fail InvalidClusterName ∧
  result clusterNameGate (named "abc-" w) = Fail InvalidClusterName ∧
  result clusterNameGate (named "ab.cd" w) = Fail InvalidClusterNameDots ∧
  InvalidClusterNameDots ≠ InvalidClusterName ∧
  (∀ c : ascii, result clusterNameGate (named (String c EmptyString) w) ≠ Return tt).
Proof.
  unfold result. rewrite !clusterNameGate_run. split_and!; try done.
  intros c. rewrite clusterNameGate_run. cbn [named installer params with_ClusterName ClusterName].
  rewrite clusterNameValidation_one_character.
  by destruct (strings.Contains _ _).
Qed.

(** C9: the encryption test succeeds exactly when [Encryption] is one of
    "disabled", "ipsec" and "wireguard"; on every other string, "aes" and
    other casings of the three included, it returns the
    invalid-encryption-mode error. *)
Theorem encryptionGate_closed_set (w : world) :
  let mode := Encryption (params (installer w)) in
  (result encryptionGate w = Return tt ↔
     mode = "disabled" ∨ mode = "ipsec" ∨ mode = "wireguard") ∧
  (result encryptionGate w ≠ Return tt →
     result encryptionGate w = Fail InvalidEncryptionMode) ∧
  (mode ∈ ["aes"; "Disabled"; "DISABLED"; "IPsec"; "IPSec"; "WireGuard"; "Wireguard"; ""] →
     result encryptionGate w = Fail InvalidEncryptionMode).
Proof.
  intros mode. unfold result. rewrite encryptionGate_run. fold mode.
  unfold encryptionDisabled, encryptionIPsec, encryptionWireguard.
  destruct (bool_decide (mode ∈ ["disabled"; "ipsec"; "wireguard"])) eqn:Hmode.
  - apply bool_decide_eq_true in Hmode. rewrite !elem_of_cons, elem_of_nil in Hmode.
    split_and!; [split; [intros _; destruct Hmode as [?|[?|[?|[]]]]; auto|done]|done|].
    rewrite !elem_of_cons, elem_of_nil.
    intros Hbad. exfalso.
    destruct Hmode as [Hm|[Hm|[Hm|[]]]]; rewrite Hm in Hbad;
      repeat (destruct Hbad as [Hbad|Hbad]; [discriminate Hbad|]); done.
  - apply bool_decide_eq_false in Hmode. rewrite !elem_of_cons, elem_of_nil in Hmode.
    split_and!; [split; [done|]|done|done].
    intros Hin. exfalso. apply Hmode. destruct Hin as [?|[?|?]]; auto.
Qed.

(** *** The whole run: AKS lookup, failing checks, empty cluster name *)

(** C5, amended: on the AKS flavor with [DatapathMode] unset, an error of the
    BYOCNI lookup is what [detectDatapathMode] returns, and the installer,
    [DatapathMode] included, stays as it was; [autodetectAndValidate], once
    the checks of the flavor have passed, returns that same error and the
    lookup is the last thing it does, so neither the cluster-name nor the
    encryption test runs.  When the lookup succeeds the mode is the BYOCNI
    one if it reports BYOCNI and the Azure one otherwise, and
    [KubeProxyReplacement] is set to "disabled" when it was unset and the
    caller passed [withKPR = true] (as [autodetectAndValidate] does); with
    [withKPR = false] it is left as it was. *)
Theorem AKS_resolution (withKPR : bool) (w : world) :
  DatapathMode (params (installer w)) = "" →
  let kpr := KubeProxyReplacement (params (installer w)) in
  let p' := params (final (detectDatapathMode withKPR) w) in
  let k1 := mkK8sInstaller (params (installer w)) AutodetectFlavor
              (chartVersion (installer w)) in
  (k8s.Kind_ (flavor (installer w)) = k8s.KindAKS →
   (∀ err, DetectBYOCNI = inl err →
      result (detectDatapathMode withKPR) w = Fail err ∧
      final (detectDatapathMode withKPR) w = installer w ∧
      DatapathMode p' = "") ∧
   (∀ byocni, DetectBYOCNI = inr byocni →
      result (detectDatapathMode withKPR) w = Return tt ∧
      DatapathMode p' = (if byocni then DatapathAKSBYOCNI else DatapathAzure) ∧
      KubeProxyReplacement p' =
        if withKPR && bool_decide (kpr = "") then "disabled" else kpr)) ∧
  (k8s.Kind_ AutodetectFlavor = k8s.KindAKS →
   forallb (passes k1) (registry !!! k8s.KindAKS) = true →
   ∀ err, DetectBYOCNI = inl err →
     result autodetectAndValidate w = Fail err ∧
     last (trace (autodetectAndValidate w).2) = Some CalledAzureAutodetect ∧
     DatapathMode (params (final autodetectAndValidate w)) = "").
Proof.
  intros Hunset kpr p' k1. split.
  { intros HA. by apply detectDatapathMode_AKS_outcomes. }
  intros HA Hpass err Herr. subst k1. clear kpr p'.
  destruct w as [[p fl ver] tr]. cbn [installer params chartVersion] in *.
  unfold result, final.
  rewrite autodetectAndValidate_checks_pass by (by rewrite HA).
  rewrite bind_run, (detectDatapathMode_AKS_error _ _ _ _ _ err) by done.
  cbn [fst snd installer params trace with_ClusterName DatapathMode].
  split_and!; [done| |done]. apply last_snoc.
Qed.

(** C7, amended: when a check that is not disabled returns an error, the
    run stops there.  The checks before it were skipped or called in order,
    no check after it is called, no later stage runs (the installer is as
    detection left it, the trace ends with the two lines about the failing
    check), and the error returned wraps the error of the check and names
    the detected kind.  The name of the failing check is in the two logged
    lines, not in the error. *)
Theorem failing_check_stops_run (pre post : list validationCheck)
    (c : validationCheck) (err : error) (w : world) :
  let k1 := mkK8sInstaller (params (installer w)) AutodetectFlavor
              (chartVersion (installer w)) in
  let kind := k8s.Kind_ AutodetectFlavor in
  registry !!! kind = pre ++ c :: post →
  forallb (passes k1) pre = true →
  checkDisabled (params k1) (Name c) = false →
  Check c k1 = Some err →
  result autodetectAndValidate w = Fail (ValidationCheckFailed kind err) ∧
  final autodetectAndValidate w = k1 ∧
  events autodetectAndValidate w =
    [CalledAutodetectFlavor] ++ kind_events kind ++
    [Logged (LogRunningChecks kind)] ++ passed_events (params k1) pre ++
    [CalledCheck (Name c); Logged (LogCheckFailed (Name c) err);
     Logged (LogDisableHint (Name c))].
Proof.
  destruct w as [[p fl ver] tr]. cbn zeta. cbn [installer params chartVersion].
  intros Hreg Hpre Hdis Herr. unfold result, final, events.
  rewrite (autodetectAndValidate_checks_fail pre post c err) by done.
  cbn [fst snd installer trace]. split_and!; [done..|].
  by rewrite drop_app_length.
Qed.

(** C10, amended: when the caller gives no [ClusterName] and the detector's
    is empty too, [autodetectAndValidate] always fails.  It fails with the
    pattern-mismatch error whenever the run reaches the cluster-name tests,
    that is when the checks pass and the BYOCNI lookup, if consulted, does
    not fail; otherwise it fails earlier, with the error of the failing
    check or of the lookup. *)
Theorem empty_cluster_name_rejected (w : world) :
  ClusterName (params (installer w)) = "" →
  k8s.ClusterName AutodetectFlavor = "" →
  let k1 := mkK8sInstaller (params (installer w)) AutodetectFlavor
              (chartVersion (installer w)) in
  let kind := k8s.Kind_ AutodetectFlavor in
  let unset := DatapathMode (params (installer w)) = "" in
  ∃ err,
    result autodetectAndValidate w = Fail err ∧
    (err = InvalidClusterName ∨
     (∃ e, err = ValidationCheckFailed kind e) ∨
     (DetectBYOCNI = inl err ∧ kind = k8s.KindAKS ∧ unset)) ∧
    (forallb (passes k1) (registry !!! kind) = true →
     (kind = k8s.KindAKS → unset → ∃ byocni, DetectBYOCNI = inr byocni) →
     err = InvalidClusterName).
Proof.
  destruct w as [[p fl ver] tr]. cbn zeta. cbn [installer params chartVersion].
  intros Hname Hdetected. unfold result.
  set (k1 := mkK8sInstaller p AutodetectFlavor ver).
  destruct (checks_split (registry !!! k8s.Kind_ AutodetectFlavor) k1)
    as [Hpass|(pre & c & post & e & Hreg & Hpre & Hdis & Herr)].
  - rewrite autodetectAndValidate_checks_pass by done.
    assert (Hadopted : adopted_name p AutodetectFlavor = "").
    { unfold adopted_name. rewrite Hname.
      rewrite (bool_decide_eq_false_2 (k8s.ClusterName AutodetectFlavor ≠ ""))
        by (by rewrite Hdetected; intros ?).
      by rewrite andb_false_r. }
    rewrite Hadopted, bind_run.
    destruct (detectDatapathMode_cases true (with_ClusterName "" p)
                AutodetectFlavor ver (tr ++ before_datapath_events p ver))
      as (r & p' & evs & -> & _ & _ & Hcn & _ & _ & _ & _ & Hr).
    cbn [with_ClusterName ClusterName DatapathMode] in Hcn, Hr.
    destruct Hr as [->|(err & -> & Herr & _ & HA & Hunset)].
    + rewrite configurationGate_run, bind_run, clusterNameGate_run.
      cbn [installer params]. rewrite Hcn. cbn.
      exists InvalidClusterName. split_and!; [done|by left|done].
    + exists err. cbn [fst]. split_and!; [done|right; by right|].
      intros _ Hlookup. destruct (Hlookup HA Hunset) as [byocni Hok].
      by rewrite Herr in Hok.
  - rewrite (autodetectAndValidate_checks_fail pre post c e) by done.
    eexists. split_and!; [done|right; left; by eexists|].
    intros Hpass _. rewrite Hreg, forallb_app in Hpass.
    apply andb_true_iff in Hpass as [_ Hc]. cbn [forallb] in Hc.
    apply andb_true_iff in Hc as [Hc _]. unfold passes in Hc.
    subst k1. cbn [params] in *. by rewrite Hdis, Herr in Hc.
Qed.

(** *** Which checks a run calls *)

Lemma configurationGate_cases (w : world) :
  ∃ r evs,
    configurationGate w = (r, mkWorld (installer w) (trace w ++ evs)) ∧
    Forall not_check evs.
Proof.
  rewrite configurationGate_run, bind_run, clusterNameGate_run.
  cbn [installer trace].
  set (ipam := if bool_decide _ then _ else _).
  assert (Hipam : Forall not_check ipam).
  { subst ipam. case_goal_bool; repeat constructor. by intros ?. }
  destruct (strings.Contains _ _).
  { eexists _, _. rewrite <- app_assoc. split; [done|].
    apply Forall_app. split; [done|]. repeat constructor. by intros ?. }
  destruct (regexp.MatchString _ _).
  - rewrite encryptionGate_run. cbn [installer trace]. case_goal_bool.
    + by eexists _, _.
    + eexists _, _. rewrite <- app_assoc. split; [done|].
      apply Forall_app. split; [done|]. repeat constructor. by intros ?.
  - eexists _, _. rewrite <- app_assoc. split; [done|].
    apply Forall_app. split; [done|]. repeat constructor. by intros ?.
Qed.

Lemma not_check_kind_events kind : Forall not_check (kind_events kind).
Proof. unfold kind_events. case_goal_bool; repeat constructor. by intros ?. Qed.

Lemma not_check_adopted_events p fl : Forall not_check (adopted_events p fl).
Proof.
  unfold adopted_events. destruct (_ && _); repeat constructor. by intros ?.
Qed.

Lemma not_check_not_elem_of (evs : list event) (name : string) :
  Forall not_check evs → CalledCheck name ∉ evs.
Proof.
  intros Hall Hin. rewrite Forall_forall in Hall. by apply (Hall _ Hin name).
Qed.

Lemma passed_events_called p (checks : list validationCheck) (name : string) :
  CalledCheck name ∈ passed_events p checks →
  ∃ c, c ∈ checks ∧ Name c = name ∧ checkDisabled p name = false.
Proof.
  unfold passed_events. intros (c & Heq & Hin)%list_elem_of_fmap.
  exists c. destruct (checkDisabled p (Name c)) eqn:Hdis; [done|].
  by simplify_eq.
Qed.

(** Every check that a run of [autodetectAndValidate] calls is a check of
    the detected kind, and its name is not in [DisableChecks]. *)
Lemma autodetectAndValidate_called (w : world) (name : string) :
  CalledCheck name ∈ events autodetectAndValidate w →
  ∃ c, c ∈ registry !!! k8s.Kind_ AutodetectFlavor ∧ Name c = name ∧
       checkDisabled (params (installer w)) name = false.
Proof.
  destruct w as [[p fl ver] tr]. unfold events. cbn [installer params trace].
  set (k1 := mkK8sInstaller p AutodetectFlavor ver).
  destruct (checks_split (registry !!! k8s.Kind_ AutodetectFlavor) k1)
    as [Hpass|(pre & c & post & e & Hreg & Hpre & Hdis & Herr)].
  - rewrite autodetectAndValidate_checks_pass by done. rewrite bind_run.
    match goal with
    | |- context [detectDatapathMode true (mkWorld (mkK8sInstaller ?q ?f ?v) ?t)] =>
        destruct (detectDatapathMode_cases true q f v t)
          as (r & p' & evs & -> & Hevs & _)
    end.
    assert (Hbefore : CalledCheck name ∈ before_datapath_events p ver ++ evs →
              ∃ c, c ∈ registry !!! k8s.Kind_ AutodetectFlavor ∧ Name c = name ∧
                   checkDisabled p name = false).
    { unfold before_datapath_events. rewrite !elem_of_app.
      intros [[Hin|[Hin|[Hin|[Hin|Hin]]]]|Hin].
      - by apply list_elem_of_singleton in Hin.
      - by apply not_check_not_elem_of in Hin; [|apply not_check_kind_events].
      - destruct (0 <? length _); [|by apply elem_of_nil in Hin].
        apply elem_of_cons in Hin as [?|Hin]; [done|].
        by apply passed_events_called.
      - by apply list_elem_of_singleton in Hin.
      - by apply not_check_not_elem_of in Hin; [|apply not_check_adopted_events].
      - by apply not_check_not_elem_of in Hin. }
    destruct r as [[]|err].
    + match goal with
      | |- context [configurationGate ?w2] =>
          destruct (configurationGate_cases w2) as (r & evs' & -> & Hevs')
      end.
      cbn [snd trace]. rewrite <- !app_assoc, drop_app_length.
      rewrite (app_assoc _ evs evs'), elem_of_app.
      intros [Hin|Hin]; [by apply Hbefore|by apply not_check_not_elem_of in Hin].
    + cbn [snd trace]. by rewrite <- !app_assoc, drop_app_length.
  - rewrite (autodetectAndValidate_checks_fail pre post c e) by done.
    cbn [snd trace]. rewrite drop_app_length, !elem_of_app.
    intros [Hin|[Hin|[Hin|[Hin|Hin]]]].
    + by apply list_elem_of_singleton in Hin.
    + by apply not_check_not_elem_of in Hin; [|apply not_check_kind_events].
    + by apply list_elem_of_singleton in Hin.
    + apply passed_events_called in Hin as (c' & Hc' & ? & ?).
      exists c'. rewrite Hreg, elem_of_app. auto.
    + unfold failed_events in Hin. rewrite !elem_of_cons, elem_of_nil in Hin.
      destruct Hin as [Hin|[Hin|[Hin|[]]]]; simplify_eq.
      exists c. rewrite Hreg, elem_of_app, elem_of_cons. auto.
Qed.

(** *** Stages that do not read [DisableChecks] *)

Lemma kpr_default_disabling (withKPR : bool) ds p :
  kpr_default withKPR (with_DisableChecks ds p) =
    with_DisableChecks ds (kpr_default withKPR p).
Proof.
  unfold kpr_default. cbn [with_DisableChecks KubeProxyReplacement].
  by destruct (withKPR && _).
Qed.

Lemma detectDatapathMode_ignores (withKPR : bool) :
  ignores_DisableChecks (detectDatapathMode withKPR).
Proof.
  intros ds [[p fl ver] tr]. unfold disabling. cbn [installer params flavor chartVersion trace].
  destruct (decide (DatapathMode p ≠ "")) as [Hset|Hunset%dec_stable].
  { by rewrite !detectDatapathMode_set. }
  destruct (decide (k8s.Kind_ fl = k8s.KindKind)) as [HK|HnK].
  { rewrite !detectDatapathMode_Kind by done.
    cbn [fst snd installer params flavor chartVersion trace].
    change (with_DatapathMode DatapathTunnel (with_DisableChecks ds p))
      with (with_DisableChecks ds (with_DatapathMode DatapathTunnel p)).
    by rewrite kpr_default_disabling. }
  destruct (decide (k8s.Kind_ fl = k8s.KindAKS)) as [HA|HnA].
  - destruct DetectBYOCNI as [err|byocni] eqn:Hlookup.
    + by rewrite !(detectDatapathMode_AKS_error _ _ _ _ _ err).
    + rewrite !(detectDatapathMode_AKS_ok _ _ _ _ _ byocni) by done.
      cbn [fst snd installer params flavor chartVersion trace].
      match goal with
      | |- context [kpr_default withKPR (with_DatapathMode ?m (with_IsBYOCNI byocni (with_DisableChecks ds p)))] =>
          change (with_DatapathMode m (with_IsBYOCNI byocni (with_DisableChecks ds p)))
            with (with_DisableChecks ds (with_DatapathMode m (with_IsBYOCNI byocni p)))
      end.
      by rewrite kpr_default_disabling.
  - by rewrite !detectDatapathMode_plain.
Qed.

Lemma configurationGate_ignores : ignores_DisableChecks configurationGate.
Proof.
  intros ds [[p fl ver] tr]. unfold disabling.
  rewrite !configurationGate_run, !bind_run, !clusterNameGate_run.
  cbn [installer params flavor chartVersion trace with_DisableChecks IPAM ClusterName].
  destruct (strings.Contains _ _); [done|].
  destruct (regexp.MatchString _ _); [|done].
  rewrite !encryptionGate_run.
  cbn [installer params flavor chartVersion trace with_DisableChecks Encryption].
  by case_goal_bool.
Qed.

Lemma ignores_bind {A B : Type} (m : M A) (f : A → M B) :
  ignores_DisableChecks m → (∀ a, ignores_DisableChecks (f a)) →
  ignores_DisableChecks (m ≫= f).
Proof.
  intros Hm Hf ds w. rewrite !bind_run, Hm.
  destruct (m w) as [[a|err] w']; cbn [fst snd]; [apply Hf|done].
Qed.

(** *** Disabling checks by name *)

Lemma checkDisabled_extra (extra name : string) (l1 l2 : list string) p :
  DisableChecks p = l1 ++ l2 → name ≠ extra →
  checkDisabled (with_DisableChecks (l1 ++ extra :: l2) p) name = checkDisabled p name.
Proof.
  intros Hds Hne.
  destruct (checkDisabled p name) eqn:Hp.
  - apply checkDisabled_elem_of. apply checkDisabled_elem_of in Hp.
    rewrite Hds in Hp. cbn [with_DisableChecks DisableChecks].
    rewrite elem_of_app, elem_of_cons. rewrite elem_of_app in Hp.
    destruct Hp as [?|?]; auto.
  - destruct (checkDisabled (with_DisableChecks _ p) name) eqn:Hp'; [|done].
    apply checkDisabled_elem_of in Hp'. cbn [with_DisableChecks DisableChecks] in Hp'.
    rewrite elem_of_app, elem_of_cons in Hp'.
    assert (Hin : name ∈ DisableChecks p).
    { rewrite Hds, elem_of_app. destruct Hp' as [?|[?|?]]; [by left|done|by right]. }
    apply checkDisabled_elem_of in Hin. by rewrite Hin in Hp.
Qed.

Lemma passes_agree (checks : list validationCheck) k k' :
  (∀ c, c ∈ checks →
     checkDisabled (params k') (Name c) = checkDisabled (params k) (Name c) ∧
     Check c k' = Check c k) →
  forallb (passes k') checks = forallb (passes k) checks ∧
  passed_events (params k') checks = passed_events (params k) checks.
Proof.
  induction checks as [|c rest IH]; intros Hagree; [done|].
  destruct (Hagree c) as [Hdis Hcheck]; [by left|].
  destruct IH as [IH1 IH2]; [intros c' Hc'; apply Hagree; by right|].
  unfold passed_events in *. cbn [forallb fmap list_fmap]. unfold passes at 1 3.
  by rewrite Hdis, Hcheck, IH1, IH2.
Qed.

(** C8: a check whose name is in [DisableChecks] is never called by
    [autodetectAndValidate]; and putting into [DisableChecks] one more name,
    which no check of the detected kind bears, changes neither the result nor
    the trace nor the installer the run leaves (the list itself apart),
    provided the checks answer the same on both installers. *)
Theorem disable_by_name (w : world) :
  (∀ name, name ∈ DisableChecks (params (installer w)) →
     CalledCheck name ∉ events autodetectAndValidate w) ∧
  (∀ (extra : string) (l1 l2 : list string),
     let checks := registry !!! k8s.Kind_ AutodetectFlavor in
     let w' := disabling (l1 ++ extra :: l2) w in
     let seen (w0 : world) :=
       mkK8sInstaller (params (installer w0)) AutodetectFlavor
         (chartVersion (installer w0)) in
     DisableChecks (params (installer w)) = l1 ++ l2 →
     (∀ c, c ∈ checks → Name c ≠ extra) →
     (∀ c, c ∈ checks → Check c (seen w') = Check c (seen w)) →
     result autodetectAndValidate w' = result autodetectAndValidate w ∧
     events autodetectAndValidate w' = events autodetectAndValidate w ∧
     (autodetectAndValidate w').2 =
       disabling (l1 ++ extra :: l2) (autodetectAndValidate w).2).
Proof.
  split.
  { intros name Hin Hcalled.
    apply autodetectAndValidate_called in Hcalled as (c & _ & _ & Hdis).
    apply checkDisabled_elem_of in Hin. by rewrite Hin in Hdis. }
  intros extra l1 l2 checks w' seen Hds Hnames Hchecks.
  assert (Hrun : autodetectAndValidate w' =
            ((autodetectAndValidate w).1,
             disabling (l1 ++ extra :: l2) (autodetectAndValidate w).2)).
  { subst w' seen. destruct w as [[p fl ver] tr].
    unfold disabling in *. cbn [installer params flavor chartVersion trace] in *.
    set (ds := l1 ++ extra :: l2) in *.
    set (k1 := mkK8sInstaller p AutodetectFlavor ver) in *.
    set (k1' := mkK8sInstaller (with_DisableChecks ds p) AutodetectFlavor ver) in *.
    assert (Hagree : ∀ sub, sub ⊆ checks →
              forallb (passes k1') sub = forallb (passes k1) sub ∧
              passed_events (with_DisableChecks ds p) sub = passed_events p sub).
    { intros sub Hsub. apply (passes_agree sub k1 k1'). intros c Hc. split.
      - by apply checkDisabled_extra, Hnames, Hsub.
      - by apply Hchecks, Hsub. }
    destruct (checks_split checks k1)
      as [Hpass|(pre & c & post & e & Hreg & Hpre & Hdis & Herr)].
    - destruct (Hagree checks) as [Hall Hevs]; [done|].
      rewrite Hpass in Hall.
      rewrite (autodetectAndValidate_checks_pass (with_DisableChecks ds p) fl ver tr)
        by exact Hall.
      rewrite (autodetectAndValidate_checks_pass p fl ver tr) by exact Hpass.
      unfold before_datapath_events. fold checks. rewrite Hevs.
      pose proof (ignores_bind (detectDatapathMode true) (λ _, configurationGate)
                    (detectDatapathMode_ignores true)
                    (λ _, configurationGate_ignores) ds) as Hrest.
      unfold disabling in Hrest. cbn [installer params flavor chartVersion trace] in Hrest.
      by rewrite <- Hrest.
    - assert (Hsub : pre ⊆ checks).
      { intros x Hx. rewrite Hreg, elem_of_app. by left. }
      assert (Hc : c ∈ checks).
      { rewrite Hreg, elem_of_app, elem_of_cons. auto. }
      destruct (Hagree pre Hsub) as [Hall Hevs].
      rewrite (autodetectAndValidate_checks_fail pre post c e p fl ver tr) by done.
      rewrite Hpre in Hall.
      rewrite (autodetectAndValidate_checks_fail pre post c e
                 (with_DisableChecks ds p) fl ver tr);
        [by rewrite Hevs|exact Hreg|exact Hall| |].
      + rewrite <- Hdis. by apply checkDisabled_extra, Hnames.
      + rewrite <- Herr. by apply Hchecks. }
  unfold result, events. rewrite Hrun. cbn [fst snd]. split_and!; [done| |done].
  by destruct w.
Qed.

(** *** Kinds without an entry in the registry *)

Lemma runValidationChecks_absent (w : world) :
  registry !! k8s.Kind_ (flavor (installer w)) = None →
  runValidationChecks w = (Return tt, w).
Proof.
  intros Habsent. unfold runValidationChecks. unfold_M.
  rewrite lookup_total_alt, Habsent. cbn. by destruct w.
Qed.

Lemma autodetectAndValidate_absent (w : world) (name : string) :
  registry !! k8s.Kind_ AutodetectFlavor = None →
  CalledCheck name ∉ events autodetectAndValidate w.
Proof.
  intros Habsent (c & Hc & _)%autodetectAndValidate_called.
  rewrite lookup_total_alt, Habsent in Hc. by apply elem_of_nil in Hc.
Qed.

(** *** Further properties: the disable list, detection, name adoption *)

(** X2: [checkDisabled] answers true exactly when the name is in
    [DisableChecks], compared byte for byte; so its answer depends only on
    which names the list holds, not on their order or repetition. *)
Theorem checkDisabled_exact (p p' : Parameters) (name : string) :
  (checkDisabled p name = true ↔ name ∈ DisableChecks p) ∧
  ((∀ n, n ∈ DisableChecks p ↔ n ∈ DisableChecks p') →
   checkDisabled p' name = checkDisabled p name).
Proof.
  split; [apply checkDisabled_elem_of|]. intros Hsame.
  destruct (checkDisabled p name) eqn:Hp.
  - apply checkDisabled_elem_of, Hsame. by apply checkDisabled_elem_of.
  - destruct (checkDisabled p' name) eqn:Hp'; [|done].
    apply checkDisabled_elem_of, Hsame, checkDisabled_elem_of in Hp'.
    by rewrite Hp' in Hp.
Qed.

(** X4: [autodetect] cannot fail; it stores the detector's answer in
    [flavor], leaves the parameters and the chart version alone, and logs
    the kind unless it is unknown.  The uninstaller's [autodetect] stores the
    same flavor and adds the same entries to the trace. *)
Theorem autodetect_detects (w : world) (u : K8sUninstaller) :
  let kind := k8s.Kind_ AutodetectFlavor in
  result autodetect w = Return tt ∧
  flavor (final autodetect w) = AutodetectFlavor ∧
  params (final autodetect w) = params (installer w) ∧
  chartVersion (final autodetect w) = chartVersion (installer w) ∧
  events autodetect w =
    CalledAutodetectFlavor ::
    (if decide (kind = k8s.KindUnknown) then [] else [Logged (LogAutodetectedKind kind)]) ∧
  K8sUninstaller_autodetect u (trace w) =
    (mkK8sUninstaller AutodetectFlavor, trace (autodetect w).2).
Proof.
  destruct w as [[p fl ver] tr]. cbn zeta. unfold result, final, events.
  rewrite autodetect_run. cbn [fst snd installer params flavor chartVersion trace].
  rewrite drop_app_length. unfold K8sUninstaller_autodetect, kind_events.
  cbn [uflavor].
  destruct (decide (k8s.Kind_ AutodetectFlavor = k8s.KindUnknown)) as [Hk|Hk].
  - rewrite bool_decide_eq_false_2 by (by intros ?). by rewrite app_nil_r.
  - rewrite bool_decide_eq_true_2 by done. split_and!; try done.
    by rewrite <- app_assoc.
Qed.

Lemma Contains_byte_cons (a c : ascii) (s : string) :
  strings.Contains (String a s) (String c EmptyString) =
    Ascii.eqb a c || strings.Contains s (String c EmptyString).
Proof.
  cbn [strings.Contains String.prefix].
  destruct (ascii_dec c a) as [->|Hne].
  - rewrite Ascii.eqb_refl. by destruct s.
  - by rewrite (proj2 (Ascii.eqb_neq a c)) by (by intros ->).
Qed.

Lemma ReplaceAll_length (s : string) (old new : ascii) :
  String.length (strings.ReplaceAll s old new) = String.length s.
Proof. induction s as [|a s IH]; cbn; congruence. Qed.

Lemma ReplaceAll_removes (s : string) (old new : ascii) :
  old ≠ new →
  strings.Contains (strings.ReplaceAll s old new) (String old EmptyString) = false.
Proof.
  intros Hne. induction s as [|a s IH]; [done|].
  cbn [strings.ReplaceAll]. rewrite Contains_byte_cons, IH, orb_false_r.
  destruct (Ascii.eqb_spec a old) as [->|Ha].
  - apply Ascii.eqb_neq. by intros ->.
  - by apply Ascii.eqb_neq.
Qed.

Lemma ReplaceAll_absent (s : string) (old new : ascii) :
  strings.Contains s (String old EmptyString) = false →
  strings.ReplaceAll s old new = s.
Proof.
  induction s as [|a s IH]; [done|].
  rewrite Contains_byte_cons. intros [Ha Hs]%orb_false_iff.
  cbn [strings.ReplaceAll]. by rewrite Ha, IH.
Qed.

Lemma ReplaceAll_other (s : string) (old new c : ascii) :
  c ≠ old → c ≠ new →
  strings.Contains (strings.ReplaceAll s old new) (String c EmptyString) =
    strings.Contains s (String c EmptyString).
Proof.
  intros Ho Hn. induction s as [|a s IH]; [done|].
  cbn [strings.ReplaceAll]. rewrite !Contains_byte_cons, IH. f_equal.
  destruct (Ascii.eqb_spec a old) as [->|Ha]; [|done].
  rewrite (proj2 (Ascii.eqb_neq new c)) by done.
  by rewrite (proj2 (Ascii.eqb_neq old c)) by done.
Qed.

(** X3: when the caller gives no cluster name and the detector gives one,
    the adopted name is the detected one with every underscore replaced by a
    hyphen: it holds no underscore, has the length of the detected name,
    holds a dot exactly when the detected name does, and is the detected
    name itself when that has no underscore.  In every other case the step
    changes nothing and logs nothing. *)
Theorem adoptClusterName_normalises (w : world) :
  let given := ClusterName (params (installer w)) in
  let detected := k8s.ClusterName (flavor (installer w)) in
  let name := ClusterName (params (final adoptClusterName w)) in
  result adoptClusterName w = Return tt ∧
  (given = "" → detected ≠ "" →
   name = strings.ReplaceAll detected "_" "-" ∧
   name ≠ "" ∧
   strings.Contains name "_" = false ∧
   String.length name = String.length detected ∧
   strings.Contains name "." = strings.Contains detected "." ∧
   (strings.Contains detected "_" = false → name = detected)) ∧
  (given ≠ "" ∨ detected = "" → adoptClusterName w = (Return tt, w)).
Proof.
  destruct w as [[p fl ver] tr]. cbn zeta. unfold result, final.
  rewrite adoptClusterName_run.
  cbn [fst snd installer params flavor with_ClusterName ClusterName].
  unfold adopted_name, adopted_events. split_and!; [done| |].
  - intros Hgiven Hdetected.
    rewrite (bool_decide_eq_true_2 _ Hgiven), (bool_decide_eq_true_2 _ Hdetected).
    cbn [andb]. split_and!; [done| | | | |].
    + destruct (k8s.ClusterName fl); [done|]. by cbn.
    + by apply ReplaceAll_removes.
    + apply ReplaceAll_length.
    + by apply ReplaceAll_other.
    + apply ReplaceAll_absent.
  - intros Hcase.
    assert (bool_decide (ClusterName p = "") &&
            bool_decide (k8s.ClusterName fl ≠ "") = false) as ->.
    { destruct Hcase as [Hgiven|Hdetected].
      - by rewrite (bool_decide_eq_false_2 _ Hgiven).
      - rewrite (bool_decide_eq_false_2 (k8s.ClusterName fl ≠ "")) by (by intros ?).
        apply andb_false_r. }
    rewrite app_nil_r. by destruct p.
Qed.

(** *** Further properties: what the resolver writes and when it looks up *)

(** X5: whatever its result, [detectDatapathMode] leaves the flavor, the
    chart version, [DisableChecks], [ClusterName], [Encryption] and [IPAM]
    as they were; [DatapathMode] keeps its value or becomes one of the five
    mode constants; [KubeProxyReplacement] keeps its value or, with
    [withKPR] set on Kind or AKS and the field unset, becomes "disabled".
    A pass that fails leaves the whole installer as it was, and its error
    is the error of the lookup; a pass that succeeds on an unset mode leaves
    one of the five constants. *)
Theorem detectDatapathMode_frame (withKPR : bool) (w : world) :
  let k := installer w in
  let k' := final (detectDatapathMode withKPR) w in
  let modes := [DatapathTunnel; DatapathAwsENI; DatapathGKE; DatapathAzure;
                DatapathAKSBYOCNI] in
  flavor k' = flavor k ∧ chartVersion k' = chartVersion k ∧
  DisableChecks (params k') = DisableChecks (params k) ∧
  ClusterName (params k') = ClusterName (params k) ∧
  Encryption (params k') = Encryption (params k) ∧
  IPAM (params k') = IPAM (params k) ∧
  (DatapathMode (params k') = DatapathMode (params k) ∨
   DatapathMode (params k') ∈ modes) ∧
  (KubeProxyReplacement (params k') = KubeProxyReplacement (params k) ∨
   (withKPR = true ∧ KubeProxyReplacement (params k) = "" ∧
    KubeProxyReplacement (params k') = "disabled" ∧
    k8s.Kind_ (flavor k) ∈ [k8s.KindKind; k8s.KindAKS])) ∧
  (∀ err, result (detectDatapathMode withKPR) w = Fail err →
     k' = k ∧ DetectBYOCNI = inl err) ∧
  (result (detectDatapathMode withKPR) w = Return tt →
   DatapathMode (params k) = "" → DatapathMode (params k') ∈ modes).
Proof.
  destruct w as [[p fl ver] tr]. cbn zeta. unfold result, final.
  cbn [installer params flavor chartVersion].
  assert (Hkpr : ∀ q, KubeProxyReplacement q = KubeProxyReplacement p →
            k8s.Kind_ fl ∈ [k8s.KindKind; k8s.KindAKS] →
            KubeProxyReplacement (kpr_default withKPR q) = KubeProxyReplacement p ∨
            (withKPR = true ∧ KubeProxyReplacement p = "" ∧
             KubeProxyReplacement (kpr_default withKPR q) = "disabled" ∧
             k8s.Kind_ fl ∈ [k8s.KindKind; k8s.KindAKS])).
  { intros q Hq Hkind. destruct (kpr_default_fields withKPR q) as (_&_&_&_&_&_&->).
    rewrite Hq. destruct withKPR; [|by left]. cbn [andb].
    destruct (bool_decide (KubeProxyReplacement p = "")) eqn:Hunset; [|by left].
    apply bool_decide_eq_true in Hunset. by right. }
  destruct (decide (DatapathMode p ≠ "")) as [Hset|Hunset%dec_stable].
  { rewrite detectDatapathMode_set by done. cbn [fst snd installer params flavor chartVersion].
    split_and!; first [done|by left]. }
  destruct (decide (k8s.Kind_ fl = k8s.KindKind)) as [HK|HnK].
  { rewrite detectDatapathMode_Kind by done.
    cbn [fst snd installer params flavor chartVersion].
    destruct (kpr_default_fields withKPR (with_DatapathMode DatapathTunnel p))
      as (->&->&->&->&->&_&_).
    cbn [with_DatapathMode DisableChecks DatapathMode ClusterName Encryption IPAM].
    split_and!;
      first [done|by (right; left)|by (intros _ _; left)|idtac].
    apply Hkpr; [done|]. rewrite HK. by left. }
  destruct (decide (k8s.Kind_ fl = k8s.KindAKS)) as [HA|HnA].
  - destruct DetectBYOCNI as [err|byocni] eqn:Hlookup.
    + rewrite (detectDatapathMode_AKS_error _ _ _ _ _ err) by done.
      cbn [fst snd installer params flavor chartVersion].
      split_and!; first [done|by left|by intros e [= ->]].
    + rewrite (detectDatapathMode_AKS_ok _ _ _ _ _ byocni) by done.
      cbn [fst snd installer params flavor chartVersion].
      match goal with
      | |- context [kpr_default withKPR ?q] =>
          destruct (kpr_default_fields withKPR q) as (->&->&->&->&->&_&_);
          pose proof (Hkpr q eq_refl) as Hkpr'
      end.
      cbn [with_DatapathMode with_IsBYOCNI DisableChecks DatapathMode ClusterName
           Encryption IPAM].
      assert (Hmode : (if byocni then DatapathAKSBYOCNI else DatapathAzure)
                        ∈ [DatapathTunnel; DatapathAwsENI; DatapathGKE;
                           DatapathAzure; DatapathAKSBYOCNI]).
      { rewrite !elem_of_cons. destruct byocni; auto 10. }
      split_and!; first [done|by right|by intros _ _|idtac].
      apply Hkpr'. rewrite HA, !elem_of_cons. auto.
  - rewrite detectDatapathMode_plain by done.
    cbn [fst snd installer params flavor chartVersion with_DatapathMode
         DisableChecks DatapathMode KubeProxyReplacement ClusterName Encryption IPAM].
    assert (Hmode : plain_mode (k8s.Kind_ fl)
                      ∈ [DatapathTunnel; DatapathAwsENI; DatapathGKE;
                         DatapathAzure; DatapathAKSBYOCNI]).
    { rewrite !elem_of_cons. destruct (k8s.Kind_ fl); cbn; auto 10. }
    split_and!; first [done|by right|by left|by intros _ _].
Qed.

Lemma is_logged_kpr_events withKPR p : Forall is_logged (kpr_events withKPR p).
Proof.
  unfold kpr_events. destruct (withKPR && _); repeat constructor. by eexists.
Qed.

Lemma is_logged_mode_events p : Forall is_logged (mode_events p).
Proof.
  unfold mode_events. destruct (bool_decide _); repeat constructor. by eexists.
Qed.

Lemma is_logged_not_lookup (evs : list event) :
  Forall is_logged evs → CalledAzureAutodetect ∉ evs.
Proof.
  intros Hall Hin. rewrite Forall_forall in Hall.
  by destruct (Hall _ Hin) as [line ?].
Qed.

(** The Azure lookup is called by [detectDatapathMode] exactly on AKS with
    the mode unset. *)
Lemma detectDatapathMode_lookup (withKPR : bool) (w : world) :
  CalledAzureAutodetect ∈ events (detectDatapathMode withKPR) w ↔
  k8s.Kind_ (flavor (installer w)) = k8s.KindAKS ∧
  DatapathMode (params (installer w)) = "".
Proof.
  destruct w as [[p fl ver] tr]. unfold events.
  cbn [installer params flavor trace].
  destruct (decide (DatapathMode p ≠ "")) as [Hset|Hunset%dec_stable].
  { rewrite detectDatapathMode_set by done. cbn [snd trace installer params].
    rewrite drop_app_length, list_elem_of_singleton. split; [done|by intros [_ ?]]. }
  destruct (decide (k8s.Kind_ fl = k8s.KindKind)) as [HK|HnK].
  { rewrite detectDatapathMode_Kind by done. cbn [snd trace].
    rewrite drop_app_length. split.
    - intros Hin. exfalso. revert Hin. apply is_logged_not_lookup, Forall_app.
      split; [apply is_logged_kpr_events|apply is_logged_mode_events].
    - intros [HA _]. by rewrite HK in HA. }
  destruct (decide (k8s.Kind_ fl = k8s.KindAKS)) as [HA|HnA].
  - destruct DetectBYOCNI as [err|byocni] eqn:Hlookup.
    + rewrite (detectDatapathMode_AKS_error _ _ _ _ _ err) by done.
      cbn [snd trace]. rewrite drop_app_length, list_elem_of_singleton. by split.
    + rewrite (detectDatapathMode_AKS_ok _ _ _ _ _ byocni) by done.
      cbn [snd trace]. rewrite drop_app_length. split; [done|]. intros _.
      by left.
  - rewrite detectDatapathMode_plain by done. cbn [snd trace].
    rewrite drop_app_length. split; [|by intros [? _]].
    intros Hin. exfalso. revert Hin. apply is_logged_not_lookup, is_logged_mode_events.
Qed.

Lemma configurationGate_logs (w : world) :
  ∃ r evs,
    configurationGate w = (r, mkWorld (installer w) (trace w ++ evs)) ∧
    Forall is_logged evs.
Proof.
  rewrite configurationGate_run, bind_run, clusterNameGate_run.
  cbn [installer trace].
  set (ipam := if bool_decide _ then _ else _).
  assert (Hipam : Forall is_logged ipam).
  { subst ipam. case_goal_bool; repeat constructor. by eexists. }
  destruct (strings.Contains _ _).
  { eexists _, _. rewrite <- app_assoc. split; [done|].
    apply Forall_app. split; [done|]. repeat constructor. by eexists. }
  destruct (regexp.MatchString _ _).
  - rewrite encryptionGate_run. cbn [installer trace]. case_goal_bool.
    + by eexists _, _.
    + eexists _, _. rewrite <- app_assoc. split; [done|].
      apply Forall_app. split; [done|]. repeat constructor. by eexists.
  - eexists _, _. rewrite <- app_assoc. split; [done|].
    apply Forall_app. split; [done|]. repeat constructor. by eexists.
Qed.

Lemma before_datapath_no_lookup p ver :
  CalledAzureAutodetect ∉ before_datapath_events p ver.
Proof.
  unfold before_datapath_events, kind_events, adopted_events, passed_events.
  rewrite !elem_of_app. intros [Hin|[Hin|[Hin|[Hin|Hin]]]].
  - by apply list_elem_of_singleton in Hin.
  - destruct (bool_decide _); [|by apply elem_of_nil in Hin].
    by apply list_elem_of_singleton in Hin.
  - destruct (0 <? length _); [|by apply elem_of_nil in Hin].
    apply elem_of_cons in Hin as [?|Hin]; [done|].
    apply list_elem_of_fmap in Hin as (c & Heq & _).
    by destruct (checkDisabled p (Name c)).
  - by apply list_elem_of_singleton in Hin.
  - destruct (_ && _); [|by apply elem_of_nil in Hin].
    by apply list_elem_of_singleton in Hin.
Qed.

(** X6: [detectDatapathMode] calls the Azure lookup exactly when the flavor
    is AKS and [DatapathMode] is unset, and a run of [autodetectAndValidate]
    calls it only when AKS is detected and the caller set no
    [DatapathMode]. *)
Theorem azure_lookup_only_when_needed (withKPR : bool) (w : world) :
  (CalledAzureAutodetect ∈ events (detectDatapathMode withKPR) w ↔
   k8s.Kind_ (flavor (installer w)) = k8s.KindAKS ∧
   DatapathMode (params (installer w)) = "") ∧
  (CalledAzureAutodetect ∈ events autodetectAndValidate w →
   k8s.Kind_ AutodetectFlavor = k8s.KindAKS ∧
   DatapathMode (params (installer w)) = "").
Proof.
  split; [apply detectDatapathMode_lookup|].
  destruct w as [[p fl ver] tr]. unfold events. cbn [installer params trace].
  set (k1 := mkK8sInstaller p AutodetectFlavor ver).
  destruct (checks_split (registry !!! k8s.Kind_ AutodetectFlavor) k1)
    as [Hpass|(pre & c & post & e & Hreg & Hpre & Hdis & Herr)].
  - rewrite autodetectAndValidate_checks_pass by done. rewrite bind_run.
    match goal with
    | |- context [detectDatapathMode true ?w2] =>
        pose proof (detectDatapathMode_lookup true w2) as Hlookup;
        unfold events in Hlookup
    end.
    match goal with
    | |- context [detectDatapathMode true (mkWorld (mkK8sInstaller ?q ?f ?v) ?t)] =>
        destruct (detectDatapathMode_cases true q f v t)
          as (r & p' & evs & Hrun & _)
    end.
    rewrite Hrun in Hlookup |- *.
    cbn [snd installer params flavor trace with_ClusterName DatapathMode] in Hlookup.
    rewrite drop_app_length in Hlookup.
    destruct r as [[]|err].
    + match goal with
      | |- context [configurationGate ?w2] =>
          destruct (configurationGate_logs w2) as (r & evs' & -> & Hevs')
      end.
      cbn [snd trace]. rewrite <- !app_assoc, drop_app_length, !elem_of_app.
      intros [Hin|[Hin|Hin]].
      * by apply before_datapath_no_lookup in Hin.
      * by apply Hlookup.
      * by apply is_logged_not_lookup in Hin.
    + cbn [snd trace]. rewrite <- !app_assoc, drop_app_length, !elem_of_app.
      intros [Hin|Hin]; [by apply before_datapath_no_lookup in Hin|by apply Hlookup].
  - rewrite (autodetectAndValidate_checks_fail pre post c e) by done.
    cbn [snd trace]. rewrite drop_app_length, !elem_of_app.
    unfold kind_events, passed_events, failed_events.
    intros [Hin|[Hin|[Hin|[Hin|Hin]]]]; exfalso.
    + by apply list_elem_of_singleton in Hin.
    + destruct (bool_decide _); [|by apply elem_of_nil in Hin].
      by apply list_elem_of_singleton in Hin.
    + by apply list_elem_of_singleton in Hin.
    + apply list_elem_of_fmap in Hin as (c' & Heq & _).
      by destruct (checkDisabled p (Name c')).
    + rewrite !elem_of_cons, elem_of_nil in Hin.
      by destruct Hin as [?|[?|[?|[]]]].
Qed.

(** X8: the configuration gate never changes the installer.  When it
    accepts, all it adds to the trace is the notice for a non-empty [IPAM];
    when it rejects, the error is one of the three the file makes and the
    last line logged is the diagnostic of that error, carrying the offending
    name or mode. *)
Theorem configurationGate_diagnostics (w : world) :
  let name := ClusterName (params (installer w)) in
  let mode := Encryption (params (installer w)) in
  let ipam := IPAM (params (installer w)) in
  final configurationGate w = installer w ∧
  (result configurationGate w = Return tt →
   events configurationGate w =
     if decide (ipam = "") then [] else [Logged (LogCustomIPAM ipam)]) ∧
  (∀ err, result configurationGate w = Fail err →
   (err = InvalidClusterNameDots ∧
    last (events configurationGate w) = Some (Logged (LogClusterNameDots name))) ∨
   (err = InvalidClusterName ∧
    last (events configurationGate w)
      = Some (Logged (LogClusterNameInvalid name clusterNameValidation))) ∨
   (err = InvalidEncryptionMode ∧
    last (events configurationGate w) = Some (Logged (LogInvalidEncryption mode)))).
Proof.
  cbn zeta. unfold result, final, events.
  rewrite configurationGate_run, bind_run, clusterNameGate_run.
  cbn [installer params trace].
  set (notice := if bool_decide _ then _ else _).
  assert (Hnotice : notice = if decide (IPAM (params (installer w)) = "")
                             then [] else [Logged (LogCustomIPAM (IPAM (params (installer w))))]).
  { subst notice. destruct (decide (IPAM (params (installer w)) = "")) as [Hi|Hi].
    - by rewrite bool_decide_eq_false_2 by (by intros ?).
    - by rewrite bool_decide_eq_true_2. }
  destruct (strings.Contains _ _).
  { cbn [fst snd installer trace]. rewrite <- app_assoc, drop_app_length.
    split_and!; [done|done|]. intros err [= <-]. left. split; [done|].
    by rewrite last_snoc. }
  destruct (regexp.MatchString _ _).
  - rewrite encryptionGate_run. cbn [installer params trace]. case_goal_bool.
    + cbn [fst snd installer trace]. rewrite drop_app_length.
      split_and!; [done|by intros _|done].
    + cbn [fst snd installer trace]. rewrite <- app_assoc, drop_app_length.
      split_and!; [done|done|]. intros err [= <-]. right. right. split; [done|].
      by rewrite last_snoc.
  - cbn [fst snd installer trace]. rewrite <- app_assoc, drop_app_length.
    split_and!; [done|done|]. intros err [= <-]. right. left. split; [done|].
    by rewrite last_snoc.
Qed.

(** *** Further properties: the whole run *)

(** [detectDatapathMode] fails exactly on AKS with the mode unset and a
    lookup that fails. *)
Lemma detectDatapathMode_result (withKPR : bool) (w : world) :
  result (detectDatapathMode withKPR) w = Return tt ↔
  (k8s.Kind_ (flavor (installer w)) = k8s.KindAKS →
   DatapathMode (params (installer w)) = "" →
   ∃ byocni, DetectBYOCNI = inr byocni).
Proof.
  destruct w as [[p fl ver] tr]. unfold result. cbn [installer params flavor].
  destruct (decide (DatapathMode p ≠ "")) as [Hset|Hunset%dec_stable].
  { rewrite detectDatapathMode_set by done. split; [by intros _ _ ?|done]. }
  destruct (decide (k8s.Kind_ fl = k8s.KindKind)) as [HK|HnK].
  { rewrite detectDatapathMode_Kind by done. split; [|done].
    intros _ HA. by rewrite HK in HA. }
  destruct (decide (k8s.Kind_ fl = k8s.KindAKS)) as [HA|HnA].
  - destruct DetectBYOCNI as [err|byocni] eqn:Hlookup.
    + rewrite (detectDatapathMode_AKS_error _ _ _ _ _ err) by done. cbn [fst].
      split; [done|]. intros Hok. by destruct (Hok HA Hunset) as [b ?].
    + rewrite (detectDatapathMode_AKS_ok _ _ _ _ _ byocni) by done.
      split; [|done]. intros _ _ _. by exists byocni.
  - rewrite detectDatapathMode_plain by done. split; [|done]. by intros _ ?.
Qed.

(** The result of the configuration gate as a function of the parameters. *)
Lemma configurationGate_result (w : world) :
  let p := params (installer w) in
  result configurationGate w = Return tt ↔
    strings.Contains (ClusterName p) "." = false ∧
    regexp.MatchString clusterNameValidation (ClusterName p) = true ∧
    Encryption p ∈ [encryptionDisabled; encryptionIPsec; encryptionWireguard].
Proof.
  cbn zeta. unfold result.
  rewrite configurationGate_run, bind_run, clusterNameGate_run.
  cbn [installer params trace].
  destruct (strings.Contains _ _); [by split; [|intros [? _]]|].
  destruct (regexp.MatchString _ _); [|by split; [|intros (_ & ? & _)]].
  rewrite encryptionGate_run. cbn [installer params trace]. case_goal_bool.
  - cbn [fst]. split; [|done]. intros _. split_and!; [done..|].
    by eapply bool_decide_eq_true_1.
  - cbn [fst]. split; [done|]. intros (_ & _ & Hin).
    by eapply bool_decide_eq_false_1 in Hin.
Qed.

(** X9: what a run of [autodetectAndValidate] does to the installer,
    whatever its result.  The flavor is the detector's answer; the chart
    version, [DisableChecks], [Encryption] and [IPAM] are as the caller left
    them; each of [ClusterName], [DatapathMode] and [KubeProxyReplacement]
    that the caller set is unchanged.  A run that stops at a validation
    check has changed no parameter at all.  The first action of every run is
    the call of the detector. *)
Theorem autodetectAndValidate_frame (w : world) :
  let k := installer w in
  let k' := final autodetectAndValidate w in
  let k1 := mkK8sInstaller (params k) AutodetectFlavor (chartVersion k) in
  flavor k' = AutodetectFlavor ∧ chartVersion k' = chartVersion k ∧
  DisableChecks (params k') = DisableChecks (params k) ∧
  Encryption (params k') = Encryption (params k) ∧
  IPAM (params k') = IPAM (params k) ∧
  (ClusterName (params k) ≠ "" → ClusterName (params k') = ClusterName (params k)) ∧
  (DatapathMode (params k) ≠ "" → DatapathMode (params k') = DatapathMode (params k)) ∧
  (KubeProxyReplacement (params k) ≠ "" →
   KubeProxyReplacement (params k') = KubeProxyReplacement (params k)) ∧
  (forallb (passes k1) (registry !!! k8s.Kind_ AutodetectFlavor) = false → k' = k1) ∧
  head (events autodetectAndValidate w) = Some CalledAutodetectFlavor.
Proof.
  destruct w as [[p fl ver] tr]. cbn zeta. unfold final, events.
  cbn [installer params chartVersion trace].
  set (k1 := mkK8sInstaller p AutodetectFlavor ver).
  destruct (checks_split (registry !!! k8s.Kind_ AutodetectFlavor) k1)
    as [Hpass|(pre & c & post & e & Hreg & Hpre & Hdis & Herr)].
  - rewrite autodetectAndValidate_checks_pass by done. rewrite bind_run.
    match goal with
    | |- context [detectDatapathMode true (mkWorld (mkK8sInstaller ?q ?f ?v) ?t)] =>
        destruct (detectDatapathMode_cases true q f v t)
          as (r & p' & evs & -> & _ & Hdc & Hcn & Henc & Hipam & Hkpr & Hdm & _)
    end.
    cbn [with_ClusterName DisableChecks ClusterName Encryption IPAM DatapathMode
         KubeProxyReplacement] in Hdc, Hcn, Henc, Hipam, Hkpr, Hdm.
    assert (Hfinal : ∀ (r : outcome unit) evs',
              let w' := (r, mkWorld (mkK8sInstaller p' AutodetectFlavor ver)
                              (tr ++ before_datapath_events p ver ++ evs')) in
              flavor (installer w'.2) = AutodetectFlavor ∧
              chartVersion (installer w'.2) = ver ∧
              DisableChecks (params (installer w'.2)) = DisableChecks p ∧
              Encryption (params (installer w'.2)) = Encryption p ∧
              IPAM (params (installer w'.2)) = IPAM p ∧
              (ClusterName p ≠ "" → ClusterName (params (installer w'.2)) = ClusterName p) ∧
              (DatapathMode p ≠ "" → DatapathMode (params (installer w'.2)) = DatapathMode p) ∧
              (KubeProxyReplacement p ≠ "" →
               KubeProxyReplacement (params (installer w'.2)) = KubeProxyReplacement p) ∧
              (forallb (passes k1) (registry !!! k8s.Kind_ AutodetectFlavor) = false →
               installer w'.2 = k1) ∧
              head (drop (length tr) (trace w'.2)) = Some CalledAutodetectFlavor).
    { intros r' evs'. cbn zeta. cbn [snd installer params flavor chartVersion trace].
      rewrite drop_app_length. split_and!; try done.
      - intros Hname. rewrite Hcn. unfold adopted_name.
        by rewrite (bool_decide_eq_false_2 _ Hname).
      - intros Hmode. by destruct (Hdm Hmode) as [_ ->].
      - intros Hfail. by rewrite Hpass in Hfail. }
    destruct r as [[]|err].
    + match goal with
      | |- context [configurationGate ?w2] =>
          destruct (configurationGate_logs w2) as (r & evs' & -> & _)
      end.
      cbn [installer trace]. rewrite <- !app_assoc. apply (Hfinal r (evs ++ evs')).
    + rewrite <- !app_assoc. apply (Hfinal (Fail err) evs).
  - rewrite (autodetectAndValidate_checks_fail pre post c e) by done.
    cbn [snd installer params flavor chartVersion trace]. rewrite drop_app_length.
    by split_and!.
Qed.

(** X10: [autodetectAndValidate] returns nil exactly when every check of
    the detected kind is disabled or passes, the Azure lookup, if the run
    needs it, succeeds, the cluster name after adoption holds no dot and
    matches the pattern, and the encryption mode is one of the three known
    ones.  The installer it then leaves holds that name and that mode. *)
Theorem autodetectAndValidate_accepts (w : world) :
  let p := params (installer w) in
  let k1 := mkK8sInstaller p AutodetectFlavor (chartVersion (installer w)) in
  let kind := k8s.Kind_ AutodetectFlavor in
  let name := adopted_name p AutodetectFlavor in
  let p' := params (final autodetectAndValidate w) in
  (result autodetectAndValidate w = Return tt ↔
     forallb (passes k1) (registry !!! kind) = true ∧
     (kind = k8s.KindAKS → DatapathMode p = "" → ∃ byocni, DetectBYOCNI = inr byocni) ∧
     strings.Contains name "." = false ∧
     regexp.MatchString clusterNameValidation name = true ∧
     Encryption p ∈ [encryptionDisabled; encryptionIPsec; encryptionWireguard]) ∧
  (result autodetectAndValidate w = Return tt →
     ClusterName p' = name ∧
     strings.Contains (ClusterName p') "." = false ∧
     regexp.MatchString clusterNameValidation (ClusterName p') = true ∧
     Encryption p' ∈ [encryptionDisabled; encryptionIPsec; encryptionWireguard]).
Proof.
  destruct w as [[p fl ver] tr]. cbn zeta. unfold result, final.
  cbn [installer params chartVersion].
  set (k1 := mkK8sInstaller p AutodetectFlavor ver).
  destruct (checks_split (registry !!! k8s.Kind_ AutodetectFlavor) k1)
    as [Hpass|(pre & c & post & e & Hreg & Hpre & Hdis & Herr)].
  - rewrite autodetectAndValidate_checks_pass by done. rewrite bind_run.
    match goal with
    | |- context [detectDatapathMode true ?w2] =>
        pose proof (detectDatapathMode_result true w2) as Hres;
        unfold result in Hres
    end.
    match goal with
    | |- context [detectDatapathMode true (mkWorld (mkK8sInstaller ?q ?f ?v) ?t)] =>
        destruct (detectDatapathMode_cases true q f v t)
          as (r & p' & evs & Hrun & _ & _ & Hcn & Henc & _)
    end.
    rewrite Hrun in Hres |- *.
    cbn [fst installer params flavor with_ClusterName ClusterName Encryption DatapathMode]
      in Hres, Hcn, Henc.
    destruct r as [[]|err].
    + assert (Hlookup := proj1 Hres eq_refl).
      match goal with
      | |- context [configurationGate ?w2] =>
          pose proof (configurationGate_result w2) as Hgate;
          destruct (configurationGate_logs w2) as (r & evs' & Hrun' & _)
      end.
      cbn zeta in Hgate. unfold result in Hgate. rewrite Hrun' in Hgate |- *.
      cbn [fst snd installer params] in Hgate |- *. rewrite Hcn, Henc in Hgate.
      rewrite Hcn, Henc. split.
      * rewrite Hgate. split; [by intros (?&?&?)|by intros (_&_&?&?&?)].
      * intros Hok. by destruct (proj1 Hgate Hok) as (?&?&?).
    + cbn [fst]. split; [|done]. split; [done|]. intros (_ & Hlookup & _).
      by apply Hres in Hlookup.
  - rewrite (autodetectAndValidate_checks_fail pre post c e) by done. cbn [fst].
    split; [|done]. split; [done|]. intros (Hall & _).
    rewrite Hreg, forallb_app in Hall.
    apply andb_true_iff in Hall as [_ Hc]. cbn [forallb] in Hc.
    apply andb_true_iff in Hc as [Hc _]. unfold passes in Hc.
    subst k1. cbn [params] in *. by rewrite Hdis, Herr in Hc.
Qed.

(** *** Further properties: the order of the checks *)

Lemma called_checks_app (l1 l2 : list event) :
  called_checks (l1 ++ l2) = called_checks l1 ++ called_checks l2.
Proof. apply omap_app. Qed.

Lemma called_checks_not_check (evs : list event) :
  Forall not_check evs → called_checks evs = [].
Proof.
  induction 1 as [|e evs He _ IH]; [done|].
  unfold called_checks in *. cbn [omap list_omap]. rewrite IH.
  destruct e as [| |name|]; try done. by destruct (He name).
Qed.

Lemma called_checks_passed_events p (checks : list validationCheck) :
  called_checks (passed_events p checks) = enabled_names p checks.
Proof.
  unfold called_checks, passed_events, enabled_names.
  induction checks as [|c rest IH]; [done|].
  cbn [fmap list_fmap omap list_omap]. rewrite filter_cons.
  destruct (checkDisabled p (Name c)) eqn:Hdis.
  - rewrite decide_False by done. apply IH.
  - rewrite decide_True by done. f_equal. apply IH.
Qed.

Lemma enabled_names_app p (l1 l2 : list validationCheck) :
  enabled_names p (l1 ++ l2) = enabled_names p l1 ++ enabled_names p l2.
Proof. unfold enabled_names. by rewrite fmap_app, filter_app. Qed.

(* The calls of a run in closed form, for a run whose checks all pass and
   for a run with a first failing check. *)
Lemma autodetectAndValidate_called_checks (w : world) :
  let p := params (installer w) in
  let k1 := mkK8sInstaller p AutodetectFlavor (chartVersion (installer w)) in
  let checks := registry !!! k8s.Kind_ AutodetectFlavor in
  (forallb (passes k1) checks = true →
   called_checks (events autodetectAndValidate w) = enabled_names p checks) ∧
  (∀ pre c post err,
     checks = pre ++ c :: post → forallb (passes k1) pre = true →
     checkDisabled p (Name c) = false → Check c k1 = Some err →
     called_checks (events autodetectAndValidate w) = enabled_names p pre ++ [Name c]).
Proof.
  destruct w as [[p fl ver] tr]. cbn zeta. unfold events.
  cbn [installer params chartVersion trace]. split.
  - intros Hpass. rewrite autodetectAndValidate_checks_pass by done. rewrite bind_run.
    match goal with
    | |- context [detectDatapathMode true (mkWorld (mkK8sInstaller ?q ?f ?v) ?t)] =>
        destruct (detectDatapathMode_cases true q f v t)
          as (r & p' & evs & -> & Hevs & _)
    end.
    assert (Hbefore : ∀ evs', Forall not_check evs' →
              called_checks (before_datapath_events p ver ++ evs') =
                enabled_names p (registry !!! k8s.Kind_ AutodetectFlavor)).
    { intros evs' Hevs'. unfold before_datapath_events.
      rewrite !called_checks_app.
      rewrite (called_checks_not_check (kind_events _)) by apply not_check_kind_events.
      rewrite (called_checks_not_check (adopted_events _ _))
        by apply not_check_adopted_events.
      rewrite (called_checks_not_check evs') by done.
      cbn [called_checks omap list_omap app]. rewrite !app_nil_r.
      destruct (0 <? length _) eqn:Hlen.
      - cbn [called_checks omap list_omap]. apply called_checks_passed_events.
      - apply Nat.ltb_ge in Hlen.
        by destruct (registry !!! k8s.Kind_ AutodetectFlavor); [|cbn in Hlen; lia]. }
    destruct r as [[]|err].
    + match goal with
      | |- context [configurationGate ?w2] =>
          destruct (configurationGate_cases w2) as (r & evs' & -> & Hevs')
      end.
      cbn [snd trace]. rewrite <- !app_assoc, drop_app_length.
      apply Hbefore. by apply Forall_app.
    + cbn [snd trace]. rewrite <- !app_assoc, drop_app_length. by apply Hbefore.
  - intros pre c post err Hreg Hpre Hdis Herr.
    rewrite (autodetectAndValidate_checks_fail pre post c err) by done.
    cbn [snd trace]. rewrite drop_app_length, !called_checks_app.
    rewrite (called_checks_not_check (kind_events _)) by apply not_check_kind_events.
    rewrite called_checks_passed_events. done.
Qed.

Lemma enabled_names_length p (checks : list validationCheck) :
  length (enabled_names p checks) ≤ length checks.
Proof.
  unfold enabled_names. rewrite <- (length_fmap Name checks). apply length_filter.
Qed.

(* The calls of a run are an initial segment of the enabled checks. *)
Lemma autodetectAndValidate_called_prefix (w : world) :
  let p := params (installer w) in
  called_checks (events autodetectAndValidate w)
    `prefix_of` enabled_names p (registry !!! k8s.Kind_ AutodetectFlavor).
Proof.
  cbn zeta.
  destruct (autodetectAndValidate_called_checks w) as [Hpass Hfail]. cbn zeta in *.
  set (k1 := mkK8sInstaller (params (installer w)) AutodetectFlavor
               (chartVersion (installer w))) in *.
  destruct (checks_split (registry !!! k8s.Kind_ AutodetectFlavor) k1)
    as [Hall|(pre & c & post & e & Hreg & Hpre & Hdis & Herr)].
  - by rewrite Hpass.
  - rewrite (Hfail pre c post e) by done.
    rewrite Hreg, enabled_names_app. apply prefix_app.
    exists (enabled_names (params (installer w)) post).
    unfold enabled_names. cbn [fmap list_fmap]. rewrite filter_cons.
    by rewrite decide_True by done.
Qed.

(** X12: in a run of [autodetectAndValidate] the checks that are called are
    an initial segment of the checks of the detected kind that are not
    disabled, in the order of the registry and once each: all of them when
    every check passes, and those up to and including the first one that
    fails otherwise, which is the last one called. *)
Theorem checks_called_in_order (w : world) :
  let p := params (installer w) in
  let k1 := mkK8sInstaller p AutodetectFlavor (chartVersion (installer w)) in
  let checks := registry !!! k8s.Kind_ AutodetectFlavor in
  let called := called_checks (events autodetectAndValidate w) in
  called `prefix_of` enabled_names p checks ∧
  (forallb (passes k1) checks = true → called = enabled_names p checks) ∧
  (∀ pre c post err,
     checks = pre ++ c :: post → forallb (passes k1) pre = true →
     checkDisabled p (Name c) = false → Check c k1 = Some err →
     called = enabled_names p pre ++ [Name c] ∧ last called = Some (Name c)).
Proof.
  cbn zeta. destruct (autodetectAndValidate_called_checks w) as [Hpass Hfail].
  split_and!; [apply autodetectAndValidate_called_prefix|done|].
  intros pre c post err Hreg Hpre Hdis Herr.
  rewrite (Hfail pre c post err) by done. split; [done|apply last_snoc].
Qed.

(** *** Further properties: the errors of a run and the lines logged *)

(* A failure of the configuration gate: its error and the last line it
   logged. *)
Lemma configurationGate_failure (w : world) :
  let p := params (installer w) in
  ∃ r evs,
    configurationGate w = (r, mkWorld (installer w) (trace w ++ evs)) ∧
    ∀ err, r = Fail err →
      (err = InvalidClusterNameDots ∧
       last evs = Some (Logged (LogClusterNameDots (ClusterName p)))) ∨
      (err = InvalidClusterName ∧
       last evs = Some (Logged (LogClusterNameInvalid (ClusterName p)
                                  clusterNameValidation))) ∨
      (err = InvalidEncryptionMode ∧
       last evs = Some (Logged (LogInvalidEncryption (Encryption p)))).
Proof.
  cbn zeta. rewrite configurationGate_run, bind_run, clusterNameGate_run.
  cbn [installer params trace].
  set (notice := if bool_decide _ then _ else _).
  destruct (strings.Contains _ _).
  { eexists _, _. rewrite <- app_assoc. split; [done|].
    intros err [= <-]. left. by rewrite last_snoc. }
  destruct (regexp.MatchString _ _).
  - rewrite encryptionGate_run. cbn [installer params trace]. case_goal_bool.
    + by eexists _, _.
    + eexists _, _. rewrite <- app_assoc. split; [done|].
      intros err [= <-]. right. right. by rewrite last_snoc.
  - eexists _, _. rewrite <- app_assoc. split; [done|].
    intros err [= <-]. right. left. by rewrite last_snoc.
Qed.

(** X13: the errors of [autodetectAndValidate].  A run that fails returns
    the error of a check of the detected kind that is not disabled, wrapped
    with the kind, after logging the hint to disable that check; or the
    error of the Azure lookup, on AKS with no [DatapathMode] given, right
    after the lookup; or one of the three errors of the configuration gate,
    after logging the diagnostic that carries the rejected name or mode. *)
Theorem autodetectAndValidate_errors (w : world) (err : error) :
  let p := params (installer w) in
  let k1 := mkK8sInstaller p AutodetectFlavor (chartVersion (installer w)) in
  let kind := k8s.Kind_ AutodetectFlavor in
  let name := adopted_name p AutodetectFlavor in
  let evs := events autodetectAndValidate w in
  result autodetectAndValidate w = Fail err →
  (∃ c e, c ∈ registry !!! kind ∧ checkDisabled p (Name c) = false ∧
          Check c k1 = Some e ∧ err = ValidationCheckFailed kind e ∧
          last evs = Some (Logged (LogDisableHint (Name c)))) ∨
  (DetectBYOCNI = inl err ∧ kind = k8s.KindAKS ∧ DatapathMode p = "" ∧
   last evs = Some CalledAzureAutodetect) ∨
  (err = InvalidClusterNameDots ∧
   last evs = Some (Logged (LogClusterNameDots name))) ∨
  (err = InvalidClusterName ∧
   last evs = Some (Logged (LogClusterNameInvalid name clusterNameValidation))) ∨
  (err = InvalidEncryptionMode ∧
   last evs = Some (Logged (LogInvalidEncryption (Encryption p)))).
Proof.
  destruct w as [[p fl ver] tr]. cbn zeta. unfold result, events.
  cbn [installer params chartVersion trace].
  set (k1 := mkK8sInstaller p AutodetectFlavor ver).
  destruct (checks_split (registry !!! k8s.Kind_ AutodetectFlavor) k1)
    as [Hpass|(pre & c & post & e & Hreg & Hpre & Hdis & Herr)].
  - rewrite autodetectAndValidate_checks_pass by done. rewrite bind_run.
    match goal with
    | |- context [detectDatapathMode true (mkWorld (mkK8sInstaller ?q ?f ?v) ?t)] =>
        destruct (detectDatapathMode_cases true q f v t)
          as (r & p' & evs & Hrun & _ & _ & Hcn & Henc & _ & _ & _ & Hfail)
    end.
    cbn [with_ClusterName ClusterName Encryption DatapathMode] in Hcn, Henc, Hfail.
    destruct r as [[]|e0].
    + rewrite Hrun.
      match goal with
      | |- context [configurationGate ?w2] =>
          destruct (configurationGate_failure w2) as (r & evs' & -> & Hgate)
      end.
      cbn [fst snd installer params trace] in Hgate |- *.
      rewrite Hcn, Henc in Hgate. intros Hr.
      rewrite <- !app_assoc, drop_app_length, !last_app.
      destruct (Hgate err Hr) as [[-> ->]|[[-> ->]|[-> ->]]]; auto 10.
    + destruct Hfail as [?|(e' & [= <-] & Hlookup & -> & HA & Hunset)]; [done|].
      rewrite (detectDatapathMode_AKS_error _ _ _ _ _ e0) by done.
      cbn [fst snd trace]. intros [= <-]. right. left.
      split_and!; [done..|]. by rewrite <- !app_assoc, drop_app_length, !last_app.
  - rewrite (autodetectAndValidate_checks_fail pre post c e) by done.
    cbn [fst snd trace]. intros [= <-]. left. exists c, e.
    split_and!; [|done..|].
    + rewrite Hreg, elem_of_app, elem_of_cons. auto.
    + by rewrite drop_app_length, !last_app.
Qed.

Lemma kpr_events_logged (withKPR : bool) p :
  Logged LogKPRDisabled ∈ kpr_events withKPR p ↔
  KubeProxyReplacement (kpr_default withKPR p) ≠ KubeProxyReplacement p.
Proof.
  unfold kpr_events, kpr_default. destruct withKPR; cbn [andb].
  - destruct (bool_decide (KubeProxyReplacement p = "")) eqn:Hk.
    + apply bool_decide_eq_true in Hk. cbn. rewrite Hk, list_elem_of_singleton.
      by split.
    + split; [by intros ?%elem_of_nil|done].
  - split; [by intros ?%elem_of_nil|done].
Qed.

Lemma mode_events_logged p (e : event) :
  e ∈ mode_events p ↔
  DatapathMode p ≠ "" ∧ e = Logged (LogAutodetectedDatapathMode (DatapathMode p)).
Proof.
  unfold mode_events. destruct (decide (DatapathMode p ≠ "")) as [Hm|Hm].
  - rewrite bool_decide_eq_true_2 by done. rewrite list_elem_of_singleton.
    split; [done|by intros [_ ?]].
  - rewrite bool_decide_eq_false_2 by done. split; [by intros ?%elem_of_nil|].
    by intros [? _].
Qed.

Lemma mode_events_last p :
  DatapathMode p ≠ "" →
  last (mode_events p) = Some (Logged (LogAutodetectedDatapathMode (DatapathMode p))).
Proof. intros Hm. unfold mode_events. by rewrite bool_decide_eq_true_2. Qed.

(** X14: the lines [detectDatapathMode] logs tell what it did.  With a mode
    given, the one line logged is the custom-mode line with that mode.  With
    none given, the line for a detected mode is logged only with the mode
    the installer is left with, and it is the last line of a pass that
    succeeds and leaves a non-empty mode.  The line for the disabled
    kube-proxy replacement is logged exactly when the pass changes
    [KubeProxyReplacement]. *)
Theorem detectDatapathMode_log_is_faithful (withKPR : bool) (w : world) :
  let k := installer w in
  let k' := final (detectDatapathMode withKPR) w in
  let evs := events (detectDatapathMode withKPR) w in
  (DatapathMode (params k) ≠ "" →
   evs = [Logged (LogCustomDatapathMode (DatapathMode (params k)))]) ∧
  (∀ m, Logged (LogAutodetectedDatapathMode m) ∈ evs →
     DatapathMode (params k) = "" ∧ m = DatapathMode (params k') ∧ m ≠ "") ∧
  (DatapathMode (params k) = "" →
   result (detectDatapathMode withKPR) w = Return tt →
   DatapathMode (params k') ≠ "" →
   last evs = Some (Logged (LogAutodetectedDatapathMode (DatapathMode (params k'))))) ∧
  (Logged LogKPRDisabled ∈ evs ↔
   KubeProxyReplacement (params k') ≠ KubeProxyReplacement (params k)).
Proof.
  destruct w as [[p fl ver] tr]. cbn zeta. unfold result, final, events.
  cbn [installer params trace].
  destruct (decide (DatapathMode p ≠ "")) as [Hset|Hunset%dec_stable].
  { rewrite detectDatapathMode_set by done. cbn [fst snd installer params trace].
    rewrite drop_app_length. split_and!; [done| |done|].
    - intros m Hin. by apply list_elem_of_singleton in Hin.
    - rewrite list_elem_of_singleton. by split. }
  destruct (decide (k8s.Kind_ fl = k8s.KindKind)) as [HK|HnK].
  { rewrite detectDatapathMode_Kind by done.
    cbn [fst snd installer params trace]. rewrite drop_app_length.
    set (q := with_DatapathMode DatapathTunnel p).
    split_and!; [done| | |].
    - intros m [Hin|Hin]%elem_of_app.
      + unfold kpr_events in Hin. destruct (withKPR && _).
        * by apply list_elem_of_singleton in Hin.
        * by apply elem_of_nil in Hin.
      + apply mode_events_logged in Hin as [Hm [= ->]]. by split_and!.
    - intros _ _ Hm. by rewrite last_app, mode_events_last.
    - rewrite elem_of_app, kpr_events_logged, mode_events_logged.
      split; [intros [?|[_ ?]]; done|by left]. }
  destruct (decide (k8s.Kind_ fl = k8s.KindAKS)) as [HA|HnA].
  - destruct DetectBYOCNI as [err|byocni] eqn:Hlookup.
    + rewrite (detectDatapathMode_AKS_error _ _ _ _ _ err) by done.
      cbn [fst snd installer params trace]. rewrite drop_app_length.
      split_and!; [done| |done|].
      * intros m Hin. by apply list_elem_of_singleton in Hin.
      * rewrite list_elem_of_singleton. by split.
    + rewrite (detectDatapathMode_AKS_ok _ _ _ _ _ byocni) by done.
      cbn [fst snd installer params trace]. rewrite drop_app_length.
      set (q := with_DatapathMode _ (with_IsBYOCNI byocni p)).
      split_and!; [done| | |].
      * intros m Hin. apply elem_of_cons in Hin as [?|Hin]; [done|].
        apply elem_of_app in Hin as [Hin|Hin].
        -- unfold kpr_events in Hin. destruct (withKPR && _).
           ++ by apply list_elem_of_singleton in Hin.
           ++ by apply elem_of_nil in Hin.
        -- apply mode_events_logged in Hin as [Hm [= ->]]. by split_and!.
      * intros _ _ Hm. by rewrite !last_app, mode_events_last.
      * rewrite !elem_of_app, list_elem_of_singleton, kpr_events_logged,
          mode_events_logged.
        split; [intros [?|[?|[_ ?]]]; done|by (right; left)].
  - rewrite detectDatapathMode_plain by done.
    cbn [fst snd installer params trace]. rewrite drop_app_length.
    split_and!; [done| | |].
    + intros m Hin. apply mode_events_logged in Hin as [Hm [= ->]]. by split_and!.
    + intros _ _ Hm. by rewrite mode_events_last.
    + rewrite mode_events_logged. cbn [with_DatapathMode KubeProxyReplacement].
      split; [by intros [_ ?]|done].
Qed.

End autodetect.

(** ** The registry as the file declares it *)

Section declared_registry.

Variables DatapathTunnel DatapathAwsENI DatapathGKE DatapathAzure DatapathAKSBYOCNI : string.
Variable AutodetectFlavor : k8s.Flavor.
Variable DetectBYOCNI : error + bool.
Variables minikubeVersionValidation kindVersionValidation azureVersionValidation : validationCheck.

Let registry : gmap k8s.Kind (list validationCheck) :=
  validationChecks minikubeVersionValidation kindVersionValidation azureVersionValidation.

Let run : M unit :=
  autodetectAndValidate DatapathTunnel DatapathAwsENI DatapathGKE DatapathAzure
    DatapathAKSBYOCNI AutodetectFlavor DetectBYOCNI registry.

Lemma validationChecks_absent (kind : k8s.Kind) :
  registry !! kind = None ↔
  kind ∉ [k8s.KindMinikube; k8s.KindKind; k8s.KindAKS].
Proof.
  subst registry. unfold validationChecks.
  rewrite !not_elem_of_cons, !lookup_insert_None, lookup_singleton_None.
  split.
  - intros [[HA HK] HM]. split_and!; [by intros ->..|apply not_elem_of_nil].
  - intros (HM & HK & HA & _). split_and!; by intros <-.
Qed.

(** C6: the registry has entries for minikube, Kind and AKS only; for every
    other kind, unknown included, the check stage of [autodetectAndValidate]
    succeeds and leaves the world as it was, so it calls no check and logs
    nothing, and the whole run calls no check either. *)
Theorem unregistered_kind_runs_no_check (w : world) :
  (∀ kind, registry !! kind = None ↔
           kind ∉ [k8s.KindMinikube; k8s.KindKind; k8s.KindAKS]) ∧
  (registry !! k8s.Kind_ (flavor (installer w)) = None →
   runValidationChecks registry w = (Return tt, w) ∧
   events (runValidationChecks registry) w = []) ∧
  (registry !! k8s.Kind_ AutodetectFlavor = None →
   ∀ name, CalledCheck name ∉ events run w).
Proof.
  split_and!.
  - apply validationChecks_absent.
  - intros Habsent. unfold events.
    rewrite (runValidationChecks_absent registry w Habsent). cbn [fst snd].
    split; [done|]. by rewrite drop_all.
  - intros Habsent name. by apply autodetectAndValidate_absent.
Qed.

(* The checks of a kind in the declared registry: one for each of the three
   kinds it names, none for any other. *)
Lemma validationChecks_total (kind : k8s.Kind) :
  registry !!! kind =
    match kind with
    | k8s.KindMinikube => [minikubeVersionValidation]
    | k8s.KindKind => [kindVersionValidation]
    | k8s.KindAKS => [azureVersionValidation]
    | _ => []
    end.
Proof.
  rewrite lookup_total_alt. subst registry. unfold validationChecks.
  destruct kind; by repeat (rewrite lookup_insert_ne by done);
    rewrite ?lookup_insert, ?lookup_singleton, ?lookup_singleton_ne by done.
Qed.

(** X11: with the registry as declared, a run of [autodetectAndValidate]
    calls at most one check, and a check it calls is the one registered for
    the detected kind, which is then minikube, Kind or AKS, and is not
    disabled. *)
Theorem declared_registry_single_check (w : world) :
  length (called_checks (events run w)) ≤ 1 ∧
  (∀ name, CalledCheck name ∈ events run w →
     checkDisabled (params (installer w)) name = false ∧
     ((k8s.Kind_ AutodetectFlavor = k8s.KindMinikube ∧
       name = Name minikubeVersionValidation) ∨
      (k8s.Kind_ AutodetectFlavor = k8s.KindKind ∧
       name = Name kindVersionValidation) ∨
      (k8s.Kind_ AutodetectFlavor = k8s.KindAKS ∧
       name = Name azureVersionValidation))).
Proof.
  split.
  - pose proof (autodetectAndValidate_called_prefix DatapathTunnel DatapathAwsENI
                  DatapathGKE DatapathAzure DatapathAKSBYOCNI AutodetectFlavor
                  DetectBYOCNI registry w) as Hprefix.
    cbn zeta in Hprefix. apply prefix_length in Hprefix. fold run in Hprefix.
    etrans; [exact Hprefix|]. etrans; [apply enabled_names_length|].
    rewrite validationChecks_total. destruct (k8s.Kind_ AutodetectFlavor); cbn; lia.
  - intros name (c & Hc & Hname & Hdis)%autodetectAndValidate_called.
    split; [done|]. rewrite validationChecks_total in Hc.
    destruct (k8s.Kind_ AutodetectFlavor);
      first [by apply elem_of_nil in Hc|apply list_elem_of_singleton in Hc as ->].
    + left. by split.
    + right. left. by split.
    + right. right. by split.
Qed.

End declared_registry.

(** ** The pattern of cluster names *)

Section pattern.

Import regexp.

Lemma nullable_matches r : nullable r = true ↔ matches r [].
Proof.
  induction r as [| |items|r1 IH1 r2 IH2|r1 IH1 r2 IH2|r IH|r IH]; cbn [nullable].
  - split; [done|]. inversion 1.
  - split; [constructor|done].
  - split; [done|]. inversion 1.
  - rewrite andb_true_iff, IH1, IH2. split.
    + intros [H1 H2]. by apply (matches_concat _ _ [] []).
    + inversion 1 as [| |? ? l1 l2 H1 H2 [Hr1 Hr2] Heq| | | | |]; subst.
      by apply app_eq_nil in Heq as [-> ->].
  - rewrite orb_true_iff, IH1, IH2. split.
    + intros [?|?]; by constructor.
    + inversion 1; subst; auto.
  - split; [constructor|done].
  - rewrite IH. split; [by constructor|]. by inversion 1.
Qed.

Lemma matches_star_cons r c l :
  matches (Star r) (c :: l) →
  ∃ l1 l2, l = l1 ++ l2 ∧ matches r (c :: l1) ∧ matches (Star r) l2.
Proof.
  intros H. remember (Star r) as r' eqn:Hr. remember (c :: l) as l' eqn:Hl.
  revert Hr Hl.
  induction H as [| | | | | |r0 l1 l2 H1 _ H2 IH2|]; intros Hr Hl; try done.
  simplify_eq. destruct l1 as [|c1 l1]; cbn in Hl.
  - by apply IH2.
  - simplify_eq. by exists l1, l2.
Qed.

Lemma deriv_matches c r l : matches (deriv c r) l ↔ matches r (c :: l).
Proof.
  revert l. induction r as [| |items|r1 IH1 r2 IH2|r1 IH1 r2 IH2|r IH|r IH];
    intros l; cbn [deriv].
  - split; inversion 1.
  - split; inversion 1.
  - destruct (in_class c items) eqn:Hc.
    + split.
      * inversion 1; subst. by constructor.
      * inversion 1; subst. constructor.
    + split; [inversion 1|]. inversion 1; subst. congruence.
  - assert (Hcat : matches (Concat (deriv c r1) r2) l →
                   matches (Concat r1 r2) (c :: l)).
    { inversion 1 as [| |? ? l1 l2 H1 H2| | | | |]; subst.
      apply IH1 in H1. by apply (matches_concat _ _ (c :: l1) l2). }
    assert (Hinv : matches (Concat r1 r2) (c :: l) →
              (∃ l1 l2, l = l1 ++ l2 ∧ matches r1 (c :: l1) ∧ matches r2 l2) ∨
              (matches r1 [] ∧ matches r2 (c :: l))).
    { inversion 1 as [| |? ? l1 l2 H1 H2 Heq| | | | |]; subst.
      destruct l1 as [|c1 l1]; cbn in *.
      - right. by subst.
      - left. simplify_eq. by exists l1, l2. }
    destruct (nullable r1) eqn:Hn.
    + split.
      * inversion 1; subst; [by apply Hcat|].
        apply (matches_concat _ _ [] (c :: l)); [by apply nullable_matches|].
        by apply IH2.
      * intros [(l1 & l2 & -> & H1 & H2)|[H1 H2]]%Hinv.
        -- apply matches_left, matches_concat; [by apply IH1|done].
        -- apply matches_right. by apply IH2.
    + split; [done|].
      intros [(l1 & l2 & -> & H1 & H2)|[H1 H2]]%Hinv.
      * apply matches_concat; [by apply IH1|done].
      * apply nullable_matches in H1. congruence.
  - split.
    + inversion 1; subst; [apply matches_left|apply matches_right]; by apply IH1 || by apply IH2.
    + inversion 1; subst; [apply matches_left|apply matches_right]; by apply IH1 || by apply IH2.
  - split.
    + inversion 1 as [| |? ? l1 l2 H1 H2| | | | |]; subst.
      apply IH in H1. by apply (matches_star_app _ (c :: l1) l2).
    + intros (l1 & l2 & -> & H1 & H2)%matches_star_cons.
      apply matches_concat; [by apply IH|done].
  - split.
    + intros H%IH. by constructor.
    + inversion 1; subst. by apply IH.
Qed.

Lemma MatchString_matches r s :
  MatchString r s = true ↔ matches r (String.list_ascii_of_string s).
Proof.
  revert r. induction s as [|c s IH]; intros r; cbn [MatchString String.list_ascii_of_string].
  - apply nullable_matches.
  - by rewrite IH, deriv_matches.
Qed.

Lemma matches_class_inv items l :
  matches (CharClass items) l ↔ ∃ c, l = [c] ∧ in_class c items = true.
Proof.
  split.
  - inversion 1; subst. by eexists.
  - intros (c & -> & Hc). by constructor.
Qed.

Lemma matches_star_class items (f : ascii → bool) l :
  (∀ c, in_class c items = f c) →
  matches (Star (CharClass items)) l ↔ forallb f l = true.
Proof.
  intros Hf. split.
  - intros H. remember (Star (CharClass items)) as r eqn:Hr.
    induction H as [| | | | | |r0 l1 l2 H1 _ H2 IH2|]; try done.
    simplify_eq. apply matches_class_inv in H1 as (c & -> & Hc).
    cbn. by rewrite <- Hf, Hc, IH2.
  - induction l as [|c l IH]; cbn; [constructor|].
    intros [Hc Hl]%andb_true_iff.
    apply (matches_star_app _ [c] l); [constructor; by rewrite Hf|by apply IH].
Qed.

Lemma in_class_lower_or_digit c :
  regexp.in_class c [regexp.Range "a" "z"; regexp.Range "0" "9"] = lower_or_digit c.
Proof. unfold regexp.in_class, lower_or_digit. cbn. by rewrite orb_false_r. Qed.

Lemma in_class_label_char c :
  regexp.in_class c [regexp.Lit "-"; regexp.Range "a" "z"; regexp.Range "0" "9"]
    = label_char c.
Proof.
  unfold regexp.in_class, label_char, lower_or_digit. cbn.
  rewrite orb_false_r. by rewrite orb_comm.
Qed.

Lemma clusterNameValidation_matches (l : list ascii) :
  matches clusterNameValidation l ↔
  ∃ c m d, l = c :: m ++ [d] ∧ lower_or_digit c = true ∧
           forallb label_char m = true ∧ lower_or_digit d = true.
Proof.
  unfold clusterNameValidation. split.
  - inversion 1 as [| |? ? l1 l2 H1 H2| | | | |]; subst.
    apply matches_class_inv in H1 as (c & -> & Hc).
    inversion H2 as [| | | | | | |? ? H3]; subst.
    inversion H3 as [| |? ? m l4 H4 H5| | | | |]; subst.
    apply matches_class_inv in H5 as (d & -> & Hd).
    apply (matches_star_class _ label_char) in H4; [|apply in_class_label_char].
    exists c, m, d. rewrite in_class_lower_or_digit in Hc, Hd. by split_and!.
  - intros (c & m & d & -> & Hc & Hm & Hd).
    apply (matches_concat _ _ [c] (m ++ [d])).
    + constructor. by rewrite in_class_lower_or_digit.
    + constructor. apply matches_concat.
      * by apply (matches_star_class _ label_char); [apply in_class_label_char|].
      * constructor. by rewrite in_class_lower_or_digit.
Qed.

Lemma length_list_ascii_of_string s :
  length (String.list_ascii_of_string s) = String.length s.
Proof. induction s; cbn; congruence. Qed.

(** X1: the pattern accepts exactly the names of the spec's pattern that
    have at least two characters. *)
Theorem clusterNameValidation_refines (s : string) :
  regexp.MatchString clusterNameValidation s =
    dns_label_like s && (2 <=? String.length s).
Proof.
  apply eq_true_iff_eq. rewrite MatchString_matches, clusterNameValidation_matches.
  rewrite andb_true_iff, Nat.leb_le, <- length_list_ascii_of_string.
  unfold dns_label_like. destruct (String.list_ascii_of_string s) as [|c rest].
  { split; [by intros (?&?&?&?&_)|by intros [? _]]. }
  split.
  - intros (c' & m & d & Heq & Hc & Hm & Hd). simplify_eq.
    rewrite Hc, forallb_app, Hm, last_last. cbn. unfold label_char at 1.
    rewrite Hd. cbn. rewrite length_app. cbn. split; [done|lia].
  - intros [H Hlen]. cbn in Hlen.
    destruct (exists_last (l:=rest)) as (m & d & ->); [by destruct rest; cbn in *; [lia|]|].
    rewrite last_last, forallb_app in H.
    apply andb_true_iff in H as [[Hc [Hm _]%andb_true_iff]%andb_true_iff Hd].
    by exists c, m, d.
Qed.

(** The dots test of [strings.Contains] as a test on the characters. *)
Lemma Contains_byte_existsb (s : string) (c : ascii) :
  strings.Contains s (String c EmptyString) =
    existsb (λ a, Ascii.eqb a c) (String.list_ascii_of_string s).
Proof.
  induction s as [|a s IH]; [done|].
  rewrite Contains_byte_cons, IH. by cbn.
Qed.

(** A name that matches the pattern holds only lowercase letters, digits
    and hyphens. *)
Lemma clusterNameValidation_chars (s : string) :
  MatchString clusterNameValidation s = true →
  forallb label_char (String.list_ascii_of_string s) = true.
Proof.
  rewrite MatchString_matches, clusterNameValidation_matches.
  intros (c & m & d & -> & Hc & Hm & Hd).
  cbn [forallb]. rewrite forallb_app, Hm. cbn [forallb]. unfold label_char.
  by rewrite Hc, Hd.
Qed.

Lemma clusterNameValidation_excludes (s : string) (c : ascii) :
  label_char c = false →
  strings.Contains s (String c EmptyString) = true →
  MatchString clusterNameValidation s = false.
Proof.
  intros Hc Hin. destruct (MatchString clusterNameValidation s) eqn:Hm; [|done].
  apply clusterNameValidation_chars in Hm.
  rewrite Contains_byte_existsb in Hin. apply existsb_exists in Hin as (a & Ha & Heq).
  apply Ascii.eqb_eq in Heq as ->.
  rewrite forallb_forall in Hm. apply Hm in Ha. congruence.
Qed.

(** X7: the test for dots never changes whether a cluster name is accepted,
    only which error a rejected one gets: a name that holds a dot cannot
    match the pattern, so the two tests of the name succeed exactly when the
    pattern matches, and the dots error is returned exactly for the names
    that hold a dot.  A name that holds an underscore is rejected as well:
    only a detected name has its underscores replaced. *)
Theorem dots_test_is_subsumed (w : world) :
  let name := ClusterName (params (installer w)) in
  (strings.Contains name "." = true →
   MatchString clusterNameValidation name = false) ∧
  (result clusterNameGate w = Return tt ↔
   MatchString clusterNameValidation name = true) ∧
  (result clusterNameGate w = Fail InvalidClusterNameDots ↔
   strings.Contains name "." = true) ∧
  (strings.Contains name "_" = true → result clusterNameGate w ≠ Return tt).
Proof.
  cbn zeta. unfold result. rewrite clusterNameGate_run. cbn zeta.
  pose proof (clusterNameValidation_excludes
                (ClusterName (params (installer w))) "." eq_refl) as Hdot.
  pose proof (clusterNameValidation_excludes
                (ClusterName (params (installer w))) "_" eq_refl) as Hunderscore.
  destruct (strings.Contains (ClusterName (params (installer w))) ".") eqn:Hc.
  - rewrite (Hdot eq_refl). cbn [fst]. by split_and!.
  - destruct (MatchString clusterNameValidation _) eqn:Hm; cbn [fst].
    + split_and!; try done. intros Hu. by specialize (Hunderscore Hu).
    + by split_and!.
Qed.

End pattern.

(** ** Concrete runs *)

(** A caller who sets nothing but a valid encryption mode, on a cluster of
    kind [kind] whose name the detector could not tell. *)
Definition ex_params : Parameters :=
  mkParameters [] "" "" "" "disabled" "" (mkAzureParameters false).

Definition ex_world (kind : k8s.Kind) : world :=
  mkWorld (mkK8sInstaller ex_params (k8s.mkFlavor kind "") "1.14.0") [].

(** A caller who sets every field that the resolution could fill. *)
Definition ex_preset_world : world :=
  mkWorld
    (mkK8sInstaller
       (mkParameters [] "custom" "strict" "prod" "disabled" "" (mkAzureParameters false))
       (k8s.mkFlavor k8s.KindKind "kind_kind") "1.14.0")
    [].

Definition ex_passing (name : string) : validationCheck :=
  mkValidationCheck name (λ _, None).

Definition ex_failing (name msg : string) : validationCheck :=
  mkValidationCheck name (λ _, Some (ExternalError msg)).

(** [detectDatapathMode] and [autodetectAndValidate] with five distinct mode
    constants. *)
Definition ex_detect : error + bool → bool → M unit :=
  detectDatapathMode "tunnel" "aws-eni" "gke" "azure" "aks-byocni".

Definition ex_run (fl : k8s.Flavor) (lookup : error + bool)
    (registry : gmap k8s.Kind (list validationCheck)) : M unit :=
  autodetectAndValidate "tunnel" "aws-eni" "gke" "azure" "aks-byocni" fl lookup registry.

(** A registry with two checks for the Kind flavor, both failing with the
    same error. *)
Definition ex_kind_checks : list validationCheck :=
  [ex_failing "version" "too old"; ex_failing "kernel" "too old"].

Definition ex_two_checks : gmap k8s.Kind (list validationCheck) :=
  {[ k8s.KindKind := ex_kind_checks ]}.

(** The world of [ex_world] with the checks named in [names] disabled. *)
Definition ex_world_disabling (names : list string) (kind : k8s.Kind) : world :=
  disabling names (ex_world kind).

(** C3, counterexample: (1) on Kind with [KubeProxyReplacement] unset,
    [detectDatapathMode] called with [withKPR = false] resolves the mode and
    leaves [KubeProxyReplacement] unset; (2) AKS is a flavor other than
    Kind, minikube, EKS and GKE, and on it the resolved mode is not the
    tunnel mode and [KubeProxyReplacement] is set. *)
Lemma detectDatapathMode_rule_table_counterexample :
  (result (ex_detect (inr false) false) (ex_world k8s.KindKind) = Return tt ∧
   DatapathMode (params (final (ex_detect (inr false) false) (ex_world k8s.KindKind)))
     = "tunnel" ∧
   KubeProxyReplacement (params (final (ex_detect (inr false) false) (ex_world k8s.KindKind)))
     = "") ∧
  ((k8s.KindAKS ∉ [k8s.KindKind; k8s.KindMinikube; k8s.KindEKS; k8s.KindGKE]) ∧
   DatapathMode (params (final (ex_detect (inr false) true) (ex_world k8s.KindAKS)))
     = "azure" ∧
   KubeProxyReplacement (params (final (ex_detect (inr false) true) (ex_world k8s.KindAKS)))
     = "disabled").
Proof.
  split_and!; try reflexivity. rewrite !not_elem_of_cons. split_and!; try done.
  apply not_elem_of_nil.
Qed.

(** C5, counterexample: on AKS with a lookup that reports BYOCNI and
    [KubeProxyReplacement] unset, [detectDatapathMode] called with
    [withKPR = false] succeeds, resolves the BYOCNI mode and leaves
    [KubeProxyReplacement] unset. *)
Lemma AKS_resolution_counterexample :
  KubeProxyReplacement (params (installer (ex_world k8s.KindAKS))) = "" ∧
  result (ex_detect (inr true) false) (ex_world k8s.KindAKS) = Return tt ∧
  DatapathMode (params (final (ex_detect (inr true) false) (ex_world k8s.KindAKS)))
    = "aks-byocni" ∧
  KubeProxyReplacement (params (final (ex_detect (inr true) false) (ex_world k8s.KindAKS)))
    = "".
Proof. by split_and!. Qed.

(** C7, counterexample: two runs on the same flavor and registry.  In the
    first the check "version" fails, in the second it is disabled and the
    check "kernel" fails; the two runs return the same error, which
    therefore does not tell the name of the failing check.  The logged lines
    do. *)
Lemma failing_check_error_counterexample :
  let fl := k8s.mkFlavor k8s.KindKind "" in
  let run := ex_run fl (inr false) ex_two_checks in
  let w1 := ex_world k8s.KindKind in
  let w2 := ex_world_disabling ["version"] k8s.KindKind in
  result run w1 = Fail (ValidationCheckFailed k8s.KindKind (ExternalError "too old")) ∧
  result run w2 = Fail (ValidationCheckFailed k8s.KindKind (ExternalError "too old")) ∧
  Logged (LogCheckFailed "version" (ExternalError "too old")) ∈ events run w1 ∧
  Logged (LogCheckFailed "kernel" (ExternalError "too old")) ∈ events run w2 ∧
  CalledCheck "version" ∉ events run w2.
Proof.
  cbn zeta. split_and!; try reflexivity.
  - apply list_elem_of_In. vm_compute. auto 10.
  - apply list_elem_of_In. vm_compute. auto 10.
  - rewrite list_elem_of_In. vm_compute. intuition discriminate.
Qed.

(** C10, counterexample: no cluster name from the caller, none from the
    detector, and the check of the Kind flavor fails: the run fails with the
    error of the check, not with the pattern-mismatch error. *)
Lemma empty_cluster_name_counterexample :
  let fl := k8s.mkFlavor k8s.KindKind "" in
  let registry :=
    validationChecks (ex_passing "minikube-version")
      (ex_failing "kind-version" "too old") (ex_passing "aks-version") in
  ClusterName (params (installer (ex_world k8s.KindKind))) = "" ∧
  k8s.ClusterName fl = "" ∧
  result (ex_run fl (inr false) registry) (ex_world k8s.KindKind)
    = Fail (ValidationCheckFailed k8s.KindKind (ExternalError "too old")) ∧
  result (ex_run fl (inr false) registry) (ex_world k8s.KindKind)
    ≠ Fail InvalidClusterName.
Proof. cbn zeta. split_and!; try reflexivity. by vm_compute. Qed.

(** The declared registry with three checks that pass. *)
Definition ex_registry : gmap k8s.Kind (list validationCheck) :=
  validationChecks (ex_passing "minikube-version") (ex_passing "kind-version")
    (ex_passing "aks-version").

(** C2, witness: the three fields of [ex_preset_world] survive the
    resolution on the Kind flavor. *)
Lemma resolution_keeps_preset_fields_witness :
  DatapathMode (params (final (adoptClusterName;; ex_detect (inr false) true) ex_preset_world))
    = "custom" ∧
  KubeProxyReplacement (params (final (adoptClusterName;; ex_detect (inr false) true) ex_preset_world))
    = "strict" ∧
  ClusterName (params (final (adoptClusterName;; ex_detect (inr false) true) ex_preset_world))
    = "prod".
Proof.
  destruct (resolution_keeps_preset_fields "tunnel" "aws-eni" "gke" "azure"
              "aks-byocni" (inr false) true ex_preset_world) as (Hdm & Hkpr & Hcn).
  split_and!.
  - apply Hdm. discriminate.
  - apply Hkpr. discriminate.
  - apply Hcn. discriminate.
Defined.

(** C3, witness: Kind with nothing preset, called as [autodetectAndValidate]
    calls it. *)
Lemma detectDatapathMode_rule_table_witness :
  DatapathMode (params (installer (ex_world k8s.KindKind))) = "" ∧
  DatapathMode (params (final (ex_detect (inr false) true) (ex_world k8s.KindKind)))
    = "tunnel" ∧
  KubeProxyReplacement (params (final (ex_detect (inr false) true) (ex_world k8s.KindKind)))
    = "disabled".
Proof.
  split; [reflexivity|].
  destruct (detectDatapathMode_rule_table "tunnel" "aws-eni" "gke" "azure"
              "aks-byocni" (inr false) true (ex_world k8s.KindKind) eq_refl)
    as (_ & HK & _).
  exact (HK eq_refl).
Defined.

(** C4, witness: a pass over [ex_preset_world], whose mode is set. *)
Lemma detectDatapathMode_idempotent_witness :
  result (ex_detect (inr false) true) ex_preset_world = Return tt ∧
  final (ex_detect (inr false) true) ex_preset_world = installer ex_preset_world.
Proof.
  apply (detectDatapathMode_idempotent "tunnel" "aws-eni" "gke" "azure"
           "aks-byocni" (inr false) true ex_preset_world).
  discriminate.
Defined.

(** C5, witness: AKS detected, the checks pass, the lookup fails. *)
Lemma AKS_resolution_witness :
  result (ex_run (k8s.mkFlavor k8s.KindAKS "aks") (inl (ExternalError "lookup failed"))
            ex_registry) (ex_world k8s.KindUnknown)
    = Fail (ExternalError "lookup failed") ∧
  result (ex_detect (inl (ExternalError "lookup failed")) true) (ex_world k8s.KindAKS)
    = Fail (ExternalError "lookup failed").
Proof.
  split.
  - destruct (AKS_resolution "tunnel" "aws-eni" "gke" "azure" "aks-byocni"
                (k8s.mkFlavor k8s.KindAKS "aks") (inl (ExternalError "lookup failed"))
                ex_registry true (ex_world k8s.KindUnknown) eq_refl) as [_ Hrun].
    exact (proj1 (Hrun eq_refl eq_refl _ eq_refl)).
  - destruct (AKS_resolution "tunnel" "aws-eni" "gke" "azure" "aks-byocni"
                (k8s.mkFlavor k8s.KindAKS "aks") (inl (ExternalError "lookup failed"))
                ex_registry true (ex_world k8s.KindAKS) eq_refl) as [Hdetect _].
    exact (proj1 (proj1 (Hdetect eq_refl) _ eq_refl)).
Defined.

(** C6, witness: EKS has no entry in the declared registry. *)
Lemma unregistered_kind_runs_no_check_witness :
  ex_registry !! k8s.KindEKS = None ∧
  runValidationChecks ex_registry (ex_world k8s.KindEKS)
    = (Return tt, ex_world k8s.KindEKS).
Proof.
  destruct (unregistered_kind_runs_no_check "tunnel" "aws-eni" "gke" "azure"
              "aks-byocni" (k8s.mkFlavor k8s.KindEKS "") (inr false)
              (ex_passing "minikube-version") (ex_passing "kind-version")
              (ex_passing "aks-version") (ex_world k8s.KindEKS))
    as (_ & Hstage & _).
  split; [reflexivity|]. exact (proj1 (Hstage eq_refl)).
Defined.

(** C7, witness: the first of the two Kind checks fails. *)
Lemma failing_check_stops_run_witness :
  result (ex_run (k8s.mkFlavor k8s.KindKind "") (inr false) ex_two_checks)
    (ex_world k8s.KindKind)
    = Fail (ValidationCheckFailed k8s.KindKind (ExternalError "too old")).
Proof.
  exact (proj1 (failing_check_stops_run "tunnel" "aws-eni" "gke" "azure"
                  "aks-byocni" (k8s.mkFlavor k8s.KindKind "") (inr false)
                  ex_two_checks [] [ex_failing "kernel" "too old"]
                  (ex_failing "version" "too old") (ExternalError "too old")
                  (ex_world k8s.KindKind) eq_refl eq_refl eq_refl eq_refl)).
Defined.

(** C8, witness: with "version" disabled it is never called, and disabling
    "no-such-check" besides changes nothing of the result. *)
Lemma disable_by_name_witness :
  (CalledCheck "version"
     ∉ events (ex_run (k8s.mkFlavor k8s.KindKind "") (inr false) ex_two_checks)
         (ex_world_disabling ["version"] k8s.KindKind)) ∧
  result (ex_run (k8s.mkFlavor k8s.KindKind "") (inr false) ex_two_checks)
    (ex_world_disabling ["no-such-check"; "version"] k8s.KindKind)
    = result (ex_run (k8s.mkFlavor k8s.KindKind "") (inr false) ex_two_checks)
        (ex_world_disabling ["version"] k8s.KindKind).
Proof.
  destruct (disable_by_name "tunnel" "aws-eni" "gke" "azure" "aks-byocni"
              (k8s.mkFlavor k8s.KindKind "") (inr false) ex_two_checks
              (ex_world_disabling ["version"] k8s.KindKind)) as [Hnever Hextra].
  split.
  - apply Hnever. by left.
  - refine (proj1 (Hextra "no-such-check" [] ["version"] eq_refl _ _)).
    + intros c Hc. change (c ∈ ex_kind_checks) in Hc.
      unfold ex_kind_checks in Hc. rewrite !elem_of_cons, elem_of_nil in Hc.
      destruct Hc as [->|[->|[]]]; discriminate.
    + intros c Hc. change (c ∈ ex_kind_checks) in Hc.
      unfold ex_kind_checks in Hc. rewrite !elem_of_cons, elem_of_nil in Hc.
      destruct Hc as [->|[->|[]]]; reflexivity.
Defined.

(** C9, witness: "ipsec" passes the encryption test, "aes" does not. *)
Lemma encryptionGate_closed_set_witness :
  result encryptionGate
    (mkWorld (mkK8sInstaller
                (mkParameters [] "" "" "" "ipsec" "" (mkAzureParameters false))
                (k8s.mkFlavor k8s.KindUnknown "") "1.14.0") [])
    = Return tt ∧
  result encryptionGate
    (mkWorld (mkK8sInstaller
                (mkParameters [] "" "" "" "aes" "" (mkAzureParameters false))
                (k8s.mkFlavor k8s.KindUnknown "") "1.14.0") [])
    = Fail InvalidEncryptionMode.
Proof.
  split.
  - apply (encryptionGate_closed_set
             (mkWorld (mkK8sInstaller
                         (mkParameters [] "" "" "" "ipsec" "" (mkAzureParameters false))
                         (k8s.mkFlavor k8s.KindUnknown "") "1.14.0") [])).
    right. left. reflexivity.
  - apply (encryptionGate_closed_set
             (mkWorld (mkK8sInstaller
                         (mkParameters [] "" "" "" "aes" "" (mkAzureParameters false))
                         (k8s.mkFlavor k8s.KindUnknown "") "1.14.0") [])).
    by left.
Defined.

(** C10, witness: EKS detected without a name, the checks pass, no lookup:
    the run reaches the cluster-name tests and fails there. *)
Lemma empty_cluster_name_rejected_witness :
  result (ex_run (k8s.mkFlavor k8s.KindEKS "") (inr false) ex_registry)
    (ex_world k8s.KindUnknown)
    = Fail InvalidClusterName.
Proof.
  destruct (empty_cluster_name_rejected "tunnel" "aws-eni" "gke" "azure"
              "aks-byocni" (k8s.mkFlavor k8s.KindEKS "") (inr false) ex_registry
              (ex_world k8s.KindUnknown) eq_refl eq_refl)
    as (err & Hresult & _ & Hgate).
  rewrite (Hgate eq_refl) in Hresult; [exact Hresult|].
  intros Hkind. discriminate Hkind.
Defined.

(** *** Instances of the further properties *)

(** The world of [ex_world] on Kind, with the name "kind_kind" detected. *)
Definition ex_detected_world : world :=
  mkWorld (mkK8sInstaller ex_params (k8s.mkFlavor k8s.KindKind "kind_kind") "1.14.0") [].

(** X2, witness: two lists that hold the same names in another order and
    with a repetition give the same answer. *)
Lemma checkDisabled_exact_witness :
  checkDisabled (with_DisableChecks ["a"; "b"; "a"] ex_params) "b" =
  checkDisabled (with_DisableChecks ["b"; "a"] ex_params) "b".
Proof.
  apply (proj2 (checkDisabled_exact (with_DisableChecks ["b"; "a"] ex_params)
                  (with_DisableChecks ["a"; "b"; "a"] ex_params) "b")).
  intros n. cbn [with_DisableChecks DisableChecks].
  rewrite !elem_of_cons, elem_of_nil. split.
  - intros [Hn|[Hn|[]]]; auto.
  - intros [Hn|[Hn|[Hn|[]]]]; auto.
Defined.

(** X3, witness: the detected name "kind_kind" is adopted as "kind-kind". *)
Lemma adoptClusterName_normalises_witness :
  ClusterName (params (final adoptClusterName ex_detected_world)) = "kind-kind" ∧
  strings.Contains (ClusterName (params (final adoptClusterName ex_detected_world))) "_"
    = false.
Proof.
  destruct (adoptClusterName_normalises ex_detected_world) as (_ & Hadopt & _).
  destruct (Hadopt eq_refl) as (Hname & _ & Hnone & _); [discriminate|].
  split; [exact Hname|exact Hnone].
Defined.

(** X5, witness: on AKS a pass whose lookup fails leaves the installer as
    it was. *)
Lemma detectDatapathMode_frame_witness :
  final (ex_detect (inl (ExternalError "lookup failed")) true) (ex_world k8s.KindAKS)
    = installer (ex_world k8s.KindAKS).
Proof.
  destruct (detectDatapathMode_frame "tunnel" "aws-eni" "gke" "azure" "aks-byocni"
              (inl (ExternalError "lookup failed")) true (ex_world k8s.KindAKS))
    as (_ & _ & _ & _ & _ & _ & _ & _ & Hfail & _).
  exact (proj1 (Hfail _ eq_refl)).
Defined.

(** X6, witness: on AKS with no mode given the lookup is called. *)
Lemma azure_lookup_only_when_needed_witness :
  CalledAzureAutodetect ∈ events (ex_detect (inr false) true) (ex_world k8s.KindAKS).
Proof.
  apply (proj2 (proj1 (azure_lookup_only_when_needed "tunnel" "aws-eni" "gke" "azure"
                         "aks-byocni" (k8s.mkFlavor k8s.KindAKS "") (inr false)
                         ex_registry true (ex_world k8s.KindAKS)))).
  split; reflexivity.
Defined.

(** X7, witness: "ab.cd" holds a dot and does not match the pattern. *)
Lemma dots_test_is_subsumed_witness :
  regexp.MatchString clusterNameValidation "ab.cd" = false.
Proof.
  exact (proj1 (dots_test_is_subsumed (named "ab.cd" (ex_world k8s.KindKind))) eq_refl).
Defined.

(** X8, witness: the gate rejects "ab.cd" and its last line is the dots
    diagnostic with that name. *)
Lemma configurationGate_diagnostics_witness :
  last (events configurationGate (named "ab.cd" (ex_world k8s.KindKind)))
    = Some (Logged (LogClusterNameDots "ab.cd")).
Proof.
  destruct (configurationGate_diagnostics (named "ab.cd" (ex_world k8s.KindKind)))
    as (_ & _ & Hfail).
  destruct (Hfail InvalidClusterNameDots eq_refl) as [[_ Hlast]|[[Herr _]|[Herr _]]].
  - exact Hlast.
  - discriminate Herr.
  - discriminate Herr.
Defined.

(** X9, witness: the three fields that [ex_preset_world] sets survive a
    whole run. *)
Lemma autodetectAndValidate_frame_witness :
  let run := ex_run (k8s.mkFlavor k8s.KindKind "kind_kind") (inr false) ex_registry in
  ClusterName (params (final run ex_preset_world)) = "prod" ∧
  DatapathMode (params (final run ex_preset_world)) = "custom" ∧
  KubeProxyReplacement (params (final run ex_preset_world)) = "strict".
Proof.
  destruct (autodetectAndValidate_frame "tunnel" "aws-eni" "gke" "azure" "aks-byocni"
              (k8s.mkFlavor k8s.KindKind "kind_kind") (inr false) ex_registry
              ex_preset_world) as (_ & _ & _ & _ & _ & Hcn & Hdm & Hkpr & _).
  split_and!.
  - apply Hcn. discriminate.
  - apply Hdm. discriminate.
  - apply Hkpr. discriminate.
Defined.

(** X10, witness: the run on [ex_preset_world] meets the five conditions
    and returns nil. *)
Lemma autodetectAndValidate_accepts_witness :
  result (ex_run (k8s.mkFlavor k8s.KindKind "kind_kind") (inr false) ex_registry)
    ex_preset_world = Return tt.
Proof.
  apply (proj1 (autodetectAndValidate_accepts "tunnel" "aws-eni" "gke" "azure"
                  "aks-byocni" (k8s.mkFlavor k8s.KindKind "kind_kind") (inr false)
                  ex_registry ex_preset_world)).
  split_and!.
  - reflexivity.
  - intros HA. discriminate HA.
  - reflexivity.
  - reflexivity.
  - apply list_elem_of_In. left. reflexivity.
Defined.

(** X11, witness: on Kind with the declared registry the check called is
    the Kind check. *)
Lemma declared_registry_single_check_witness :
  (k8s.KindKind = k8s.KindMinikube ∧ "kind-version" = "minikube-version") ∨
  (k8s.KindKind = k8s.KindKind ∧ "kind-version" = "kind-version") ∨
  (k8s.KindKind = k8s.KindAKS ∧ "kind-version" = "aks-version").
Proof.
  refine (proj2 (proj2 (declared_registry_single_check "tunnel" "aws-eni" "gke"
                          "azure" "aks-byocni" (k8s.mkFlavor k8s.KindKind "")
                          (inr false) (ex_passing "minikube-version")
                          (ex_passing "kind-version") (ex_passing "aks-version")
                          (ex_world k8s.KindKind)) "kind-version" _)).
  apply list_elem_of_In. vm_compute. auto 10.
Defined.

(** X12, witness: of the two Kind checks the first fails, and it is the
    only one called. *)
Lemma checks_called_in_order_witness :
  called_checks (events (ex_run (k8s.mkFlavor k8s.KindKind "") (inr false) ex_two_checks)
                   (ex_world k8s.KindKind)) = ["version"].
Proof.
  destruct (checks_called_in_order "tunnel" "aws-eni" "gke" "azure" "aks-byocni"
              (k8s.mkFlavor k8s.KindKind "") (inr false) ex_two_checks
              (ex_world k8s.KindKind)) as (_ & _ & Hfail).
  exact (proj1 (Hfail [] (ex_failing "version" "too old")
                  [ex_failing "kernel" "too old"] (ExternalError "too old")
                  eq_refl eq_refl eq_refl eq_refl)).
Defined.

(** X13, witness: EKS detected without a name: the run fails with the
    pattern-mismatch error, and the last line logged is its diagnostic. *)
Lemma autodetectAndValidate_errors_witness :
  last (events (ex_run (k8s.mkFlavor k8s.KindEKS "") (inr false) ex_registry)
          (ex_world k8s.KindUnknown))
    = Some (Logged (LogClusterNameInvalid "" clusterNameValidation)).
Proof.
  destruct (autodetectAndValidate_errors "tunnel" "aws-eni" "gke" "azure" "aks-byocni"
              (k8s.mkFlavor k8s.KindEKS "") (inr false) ex_registry
              (ex_world k8s.KindUnknown) InvalidClusterName eq_refl)
    as [(c & e & _ & _ & _ & Herr & _)|[[Hlookup _]|[[Herr _]|[[_ Hlast]|[Herr _]]]]].
  - discriminate Herr.
  - discriminate Hlookup.
  - discriminate Herr.
  - exact Hlast.
  - discriminate Herr.
Defined.

(** X14, witness: on Kind with nothing given the last line logged is the
    line for the detected mode, with the tunnel mode. *)
Lemma detectDatapathMode_log_is_faithful_witness :
  last (events (ex_detect (inr false) true) (ex_world k8s.KindKind))
    = Some (Logged (LogAutodetectedDatapathMode "tunnel")).
Proof.
  destruct (detectDatapathMode_log_is_faithful "tunnel" "aws-eni" "gke" "azure"
              "aks-byocni" (inr false) true (ex_world k8s.KindKind))
    as (_ & _ & Hlast & _).
  apply Hlast; [reflexivity|reflexivity|discriminate].
Defined.

End install.
